(** * The Alembic archive inspector (autofuzz/alembic_fuzzer.cc)

    A shallow embedding of the fuzzing entry point and of the node printers
    it calls.  The Alembic library and the temporary-file helpers of
    fuzz_utils.h are outside the harness: the library is represented by the
    answers its calls give (each call either returns or throws), the helpers
    by a small file-system model. *)

From stdpp Require Import gmap strings list pretty.

(** ** Exceptions and library calls *)

(** What a [throw] inside the library can carry, as far as the handler of
    [LLVMFuzzerTestOneInput] can tell: an object whose type derives from
    [std::exception] (with its [what()] text) or an object of another type. *)
Inductive exn : Type :=
  | StdException (what : string)
  | ForeignException.

(** The answer of one call into the library. *)
Inductive call (A : Type) : Type :=
  | Returns (a : A)
  | Throws (e : exn).
Arguments Returns {A} a.
Arguments Throws {A} e.

(** ** The library's objects, as the harness observes them *)

Inductive PropertyType : Type :=
  | kCompoundProperty
  | kScalarProperty
  | kArrayProperty.

Module PropertyHeader.
Record t : Type := mk {
    getPropertyType : PropertyType;
    getName : string
}.
End PropertyHeader.

Module ICompoundProperty.
Record t : Type := mk {
    getNumProperties : call nat;
    getPropertyHeader : nat -> call PropertyHeader.t
}.
End ICompoundProperty.

(** [IN3fGeomParam] and [IV2fGeomParam]: only [getNumSamples] is used. *)
Module IGeomParam.
Record t : Type := mk {
    getNumSamples : call nat
}.
End IGeomParam.

Module IPolyMeshSchema.
Record t : Type := mk {
    getNumProperties : call nat;
    getPropertyHeader : nat -> call PropertyHeader.t;
    getNumSamples : call nat;
    getNormalsParam : call IGeomParam.t;
    getUVsParam : call IGeomParam.t;
    getArbGeomParams : call ICompoundProperty.t
}.
End IPolyMeshSchema.

(** [ISubDSchema] has no normals parameter.  The four scheme properties are
    only streamed to [std::cout]; each field is the text that streaming the
    property yields. *)
Module ISubDSchema.
Record t : Type := mk {
    getNumProperties : call nat;
    getPropertyHeader : nat -> call PropertyHeader.t;
    getNumSamples : call nat;
    getUVsParam : call IGeomParam.t;
    getArbGeomParams : call ICompoundProperty.t;
    getSubdivisionSchemeProperty : call string;
    getFaceVaryingInterpolateBoundaryProperty : call string;
    getFaceVaryingPropagateCornersProperty : call string;
    getInterpolateBoundaryProperty : call string
}.
End ISubDSchema.

Module ICurvesSchema.
Record t : Type := mk {
    getNumProperties : call nat;
    getPropertyHeader : nat -> call PropertyHeader.t;
    getNumSamples : call nat;
    getNormalsParam : call IGeomParam.t;
    getUVsParam : call IGeomParam.t;
    getArbGeomParams : call ICompoundProperty.t
}.
End ICurvesSchema.

Module IFaceSetSchema.
Record t : Type := mk {
    getNumSamples : call nat
}.
End IFaceSetSchema.

Module IXformSchema.
Record t : Type := mk {
    getNumSamples : call nat;
    getNumOps : call nat
}.
End IXformSchema.

Module IMaterialSchema.
Record t : Type := mk {
    getShaderTypesForTarget : string -> call (list string);
    getShaderParameters : string -> string -> call ICompoundProperty.t
}.
End IMaterialSchema.

(** An object header is plain data: the two names and the meta data, kept
    here in its serialized form (the harness only calls [serialize()]). *)
Module ObjectHeader.
Record t : Type := mk {
    getName : string;
    getFullName : string;
    getMetaData_serialize : string
}.
End ObjectHeader.

(** A node of the archive.  [asPolyMesh] is the answer of
    [IPolyMesh(node.getParent(), header.getName()).getSchema()], and in the
    same way for the other typed views; [getChild i] is the answer of
    [node.getChild(i)]. *)
Module IObject.
#[local] Unset Elimination Schemes.
Inductive t : Type := mk {
    getHeader : ObjectHeader.t;
    asPolyMesh : call IPolyMeshSchema.t;
    asSubD : call ISubDSchema.t;
    asFaceSet : call IFaceSetSchema.t;
    asCurves : call ICurvesSchema.t;
    asXform : call IXformSchema.t;
    asMaterial : call IMaterialSchema.t;
    getNumChildren : call nat;
    getChild : nat -> call t
}.
#[local] Set Elimination Schemes.
End IObject.

Module IArchive.
Record t : Type := mk {
    valid : bool;
    getName : call string;
    getTop : call IObject.t
}.
End IArchive.

(** The part of the library that is not a method of an object: the factory
    and the six static [matches] tests on a header.  [getArchive file
    content] is the answer of [IFactory().getArchive(file)] when the file at
    that path holds [content] ([None]: there is no such file). *)
Class AbcLibrary : Type := {
  getArchive : string -> option (list Byte.byte) -> call IArchive.t;
  IPolyMesh_matches : ObjectHeader.t -> bool;
  ISubD_matches : ObjectHeader.t -> bool;
  IFaceSet_matches : ObjectHeader.t -> bool;
  ICurves_matches : ObjectHeader.t -> bool;
  IXform_matches : ObjectHeader.t -> bool;
  IMaterial_matches : ObjectHeader.t -> bool
}.

(** ** The process state *)

(** One call of a helper of fuzz_utils.h: [buf_to_file] with the path it
    returned ([None] for [NULL]), or [delete_file] with its argument and the
    status it returned. *)
Inductive fs_event : Type :=
  | EvCreate (path : option string)
  | EvDelete (path : string) (status : Z).

Record world : Type := mkWorld {
  stdout : string;                    (* every character sent to std::cout *)
  stdout_silenced : bool;             (* ignore_stdout() has been called *)
  initialized : bool;                 (* static bool initialized *)
  files : gmap string (list Byte.byte);    (* temporary storage *)
  fs_log : list fs_event              (* calls of the fuzz_utils.h helpers *)
}.

Definition set_stdout (s : string) (w : world) : world :=
  mkWorld s (stdout_silenced w) (initialized w) (files w) (fs_log w).
Definition set_stdout_silenced (b : bool) (w : world) : world :=
  mkWorld (stdout w) b (initialized w) (files w) (fs_log w).
Definition set_initialized (b : bool) (w : world) : world :=
  mkWorld (stdout w) (stdout_silenced w) b (files w) (fs_log w).
Definition set_files (f : gmap string (list Byte.byte)) (w : world) : world :=
  mkWorld (stdout w) (stdout_silenced w) (initialized w) f (fs_log w).
Definition log_event (e : fs_event) (w : world) : world :=
  mkWorld (stdout w) (stdout_silenced w) (initialized w) (files w)
          (fs_log w ++ [e]).

(** What the environment decides for the helpers.  Time is counted in
    helper calls made by the process so far: [tmpname n] is the fresh path
    picked for a temporary file asked for at time [n] ([None]: none can be
    made), [unlink_status n] the status of removing an existing file at time
    [n] ([0]: removed). *)
Class Environment : Type := {
  tmpname : nat -> option string;
  unlink_status : nat -> Z
}.

(** ** Computations of the harness *)

(** How a piece of the program ends: it returns, an exception leaves it,
    [exit] ends the process, or its behaviour is undefined. *)
Inductive outcome (A : Type) : Type :=
  | Ret (a : A)
  | Throw (e : exn)
  | Exit (status : Z)
  | Undefined.
Arguments Ret {A} a.
Arguments Throw {A} e.
Arguments Exit {A} status.
Arguments Undefined {A}.

Definition M (A : Type) : Type := world -> outcome A * world.

Definition ret {A} (a : A) : M A := fun w => (Ret a, w).

Definition bind {A B} (m : M A) (k : A -> M B) : M B :=
  fun w =>
    match m w with
    | (Ret a, w') => k a w'
    | (Throw e, w') => (Throw e, w')
    | (Exit s, w') => (Exit s, w')
    | (Undefined, w') => (Undefined, w')
    end.

Declare Scope harness_scope.
Delimit Scope harness_scope with M.
Notation "x <- m ;; k" := (bind m (fun x => k))
  (at level 100, m at next level, right associativity) : harness_scope.
Notation "m ;; k" := (bind m (fun _ => k))
  (at level 100, right associativity) : harness_scope.
Local Open Scope harness_scope.

Definition throw {A} (e : exn) : M A := fun w => (Throw e, w).
Definition exit {A} (status : Z) : M A := fun w => (Exit status, w).
Definition undefined {A} : M A := fun w => (Undefined, w).

(** A call into the library. *)
Definition lib {A} (c : call A) : M A :=
  match c with
  | Returns a => ret a
  | Throws e => throw e
  end.

(** [std::cout << s]. *)
Definition cout (s : string) : M unit :=
  fun w => (Ret tt, set_stdout (stdout w +:+ s) w).

(** [try { m } catch (const std::exception& e) { handler(e.what()) }]. *)
Definition try_catch_std (m : M unit) (handler : string -> M unit) : M unit :=
  fun w =>
    match m w with
    | (Throw (StdException what), w') => handler what w'
    | r => r
    end.

(** [for (size_t i = from; i < from + count; i++) body(i)]. *)
Fixpoint for_range (from count : nat) (body : nat -> M unit) : M unit :=
  match count with
  | O => ret tt
  | S count' => body from ;; for_range (S from) count' body
  end.

(** [v[i]] on a [std::vector]: undefined outside the vector. *)
Definition vector_at {A} (v : list A) (i : nat) : M A :=
  match v !! i with
  | Some x => ret x
  | None => undefined
  end.

(** The end-of-line character, as ["\n"] and [std::endl] write it. *)
Definition nl : string := String (Ascii.ascii_of_nat 10) "".

(** The two statuses of <cstdlib>. *)
Definition EXIT_SUCCESS : Z := 0.
Definition EXIT_FAILURE : Z := 1.

(** ** The printers

    The operands of a chain of [<<] are evaluated from left to right: the
    text to the left of a library call is on the stream before the call is
    made. *)

Section Printers.
Context {library : AbcLibrary}.

Definition printMeshAttributes (schema : IPolyMeshSchema.t) : M unit :=
  meshPropertyCount <- lib (IPolyMeshSchema.getNumProperties schema) ;;
  cout "  Mesh Property Count: " ;; cout (pretty meshPropertyCount) ;;
  cout ("." +:+ nl) ;;
  for_range 0 meshPropertyCount (fun p =>
    header <- lib (IPolyMeshSchema.getPropertyHeader schema p) ;;
    let pType := PropertyHeader.getPropertyType header in
    let name := PropertyHeader.getName header in
    cout "  Property[" ;; cout (pretty p) ;; cout "] name: " ;; cout name ;;
    cout nl ;;
    if String.eqb name "P" then
      cout "    Sample Count: " ;;
      n <- lib (IPolyMeshSchema.getNumSamples schema) ;;
      cout (pretty n) ;; cout nl
    else if String.eqb name "N" then
      cout "    Sample Count: " ;;
      param <- lib (IPolyMeshSchema.getNormalsParam schema) ;;
      n <- lib (IGeomParam.getNumSamples param) ;;
      cout (pretty n) ;; cout nl
    else if String.eqb name "uv" || String.eqb name "st" then
      cout "    Sample Count: " ;;
      param <- lib (IPolyMeshSchema.getUVsParam schema) ;;
      n <- lib (IGeomParam.getNumSamples param) ;;
      cout (pretty n) ;; cout nl
    else if String.eqb name ".arbGeomParams" then
      geoParam <- lib (IPolyMeshSchema.getArbGeomParams schema) ;;
      geoPropCount <- lib (ICompoundProperty.getNumProperties geoParam) ;;
      cout "    GeomParams Count: " ;; cout (pretty geoPropCount) ;;
      cout ("." +:+ nl) ;;
      for_range 0 geoPropCount (fun g =>
        headerGeo <- lib (ICompoundProperty.getPropertyHeader geoParam g) ;;
        let nameGeo := PropertyHeader.getName headerGeo in
        cout "    arbGeomParam[" ;; cout (pretty g) ;; cout "] name: " ;;
        cout nameGeo ;; cout nl)
    else ret tt).

Definition printSubDAttributes (schema : ISubDSchema.t) : M unit :=
  subdPropertyCount <- lib (ISubDSchema.getNumProperties schema) ;;
  cout "  SubD Property Count: " ;; cout (pretty subdPropertyCount) ;;
  cout ("." +:+ nl) ;;
  for_range 0 subdPropertyCount (fun p =>
    header <- lib (ISubDSchema.getPropertyHeader schema p) ;;
    let pType := PropertyHeader.getPropertyType header in
    let name := PropertyHeader.getName header in
    cout "  Property[" ;; cout (pretty p) ;; cout "] name: " ;; cout name ;;
    cout nl ;;
    if String.eqb name "P" then
      cout "    Sample Count: " ;;
      n <- lib (ISubDSchema.getNumSamples schema) ;;
      cout (pretty n) ;; cout nl
    else if String.eqb name "uv" || String.eqb name "st" then
      cout "    Sample Count: " ;;
      param <- lib (ISubDSchema.getUVsParam schema) ;;
      n <- lib (IGeomParam.getNumSamples param) ;;
      cout (pretty n) ;; cout nl
    else if String.eqb name ".arbGeomParams" then
      geoParam <- lib (ISubDSchema.getArbGeomParams schema) ;;
      geoPropCount <- lib (ICompoundProperty.getNumProperties geoParam) ;;
      cout "    GeomParams Count: " ;; cout (pretty geoPropCount) ;;
      cout ("." +:+ nl) ;;
      for_range 0 geoPropCount (fun g =>
        headerGeo <- lib (ICompoundProperty.getPropertyHeader geoParam g) ;;
        let nameGeo := PropertyHeader.getName headerGeo in
        cout "    arbGeomParam[" ;; cout (pretty g) ;; cout "] name: " ;;
        cout nameGeo ;; cout nl)
    else ret tt).

Definition printCurvesAttributes (schema : ICurvesSchema.t) : M unit :=
  propertyCount <- lib (ICurvesSchema.getNumProperties schema) ;;
  cout "  Curves Property Count: " ;; cout (pretty propertyCount) ;;
  cout ("." +:+ nl) ;;
  for_range 0 propertyCount (fun p =>
    header <- lib (ICurvesSchema.getPropertyHeader schema p) ;;
    let pType := PropertyHeader.getPropertyType header in
    let name := PropertyHeader.getName header in
    cout "  Property[" ;; cout (pretty p) ;; cout "] name: " ;; cout name ;;
    cout nl ;;
    if String.eqb name "P" then
      cout "    Sample Count: " ;;
      n <- lib (ICurvesSchema.getNumSamples schema) ;;
      cout (pretty n) ;; cout nl
    else if String.eqb name "N" then
      cout "    Sample Count: " ;;
      param <- lib (ICurvesSchema.getNormalsParam schema) ;;
      n <- lib (IGeomParam.getNumSamples param) ;;
      cout (pretty n) ;; cout nl
    else if String.eqb name "uv" || String.eqb name "st" then
      cout "    Sample Count: " ;;
      param <- lib (ICurvesSchema.getUVsParam schema) ;;
      n <- lib (IGeomParam.getNumSamples param) ;;
      cout (pretty n) ;; cout nl
    else if String.eqb name ".arbGeomParams" then
      geoParam <- lib (ICurvesSchema.getArbGeomParams schema) ;;
      geoPropCount <- lib (ICompoundProperty.getNumProperties geoParam) ;;
      cout "    GeomParams Count: " ;; cout (pretty geoPropCount) ;;
      cout ("." +:+ nl) ;;
      for_range 0 geoPropCount (fun g =>
        headerGeo <- lib (ICompoundProperty.getPropertyHeader geoParam g) ;;
        let nameGeo := PropertyHeader.getName headerGeo in
        cout "    arbGeomParam[" ;; cout (pretty g) ;; cout "] name: " ;;
        cout nameGeo ;; cout nl)
    else ret tt).

Definition printPolyMesh (node : IObject.t) : M unit :=
  schema <- lib (IObject.asPolyMesh node) ;;
  printMeshAttributes schema.

Definition printSubD (node : IObject.t) : M unit :=
  schema <- lib (IObject.asSubD node) ;;
  printSubDAttributes schema ;;
  cout "  Subdivision Scheme: " ;;
  s <- lib (ISubDSchema.getSubdivisionSchemeProperty schema) ;;
  cout s ;; cout nl ;;
  cout "  Face Varying Interpolate Boundary: " ;;
  s <- lib (ISubDSchema.getFaceVaryingInterpolateBoundaryProperty schema) ;;
  cout s ;; cout nl ;;
  cout "  Face Varying Propagate Corners: " ;;
  s <- lib (ISubDSchema.getFaceVaryingPropagateCornersProperty schema) ;;
  cout s ;; cout nl ;;
  cout "  Interpolate Boundary: " ;;
  s <- lib (ISubDSchema.getInterpolateBoundaryProperty schema) ;;
  cout s ;; cout nl.

Definition printFaceSet (node : IObject.t) : M unit :=
  schema <- lib (IObject.asFaceSet node) ;;
  cout "  Sample Count: " ;;
  n <- lib (IFaceSetSchema.getNumSamples schema) ;;
  cout (pretty n) ;; cout nl.

Definition printCurves (node : IObject.t) : M unit :=
  schema <- lib (IObject.asCurves node) ;;
  printCurvesAttributes schema.

Definition printXform (node : IObject.t) : M unit :=
  schema <- lib (IObject.asXform node) ;;
  cout "  Sample Count: " ;;
  n <- lib (IXformSchema.getNumSamples schema) ;;
  cout (pretty n) ;; cout nl ;;
  cout "  Number of Ops: " ;;
  k <- lib (IXformSchema.getNumOps schema) ;;
  cout (pretty k) ;; cout nl.

Definition printMaterial (node : IObject.t) : M unit :=
  schema <- lib (IObject.asMaterial node) ;;
  let targetNames : list string := [] in
  let targetCount := length targetNames in
  cout "  Target Count: " ;; cout (pretty targetCount) ;; cout nl ;;
  for_range 0 targetCount (fun t =>
    cout "  Target[" ;; cout (pretty t) ;; cout "] name: " ;;
    name <- vector_at targetNames t ;;
    cout name ;; cout nl ;;
    target <- vector_at targetNames t ;;
    shaderTypes <- lib (IMaterialSchema.getShaderTypesForTarget schema target) ;;
    let shaderTypeCount := length shaderTypes in
    cout "    Shader Type Count: " ;; cout (pretty shaderTypeCount) ;;
    cout nl ;;
    for_range 0 shaderTypeCount (fun s =>
      cout "    Shader Type [" ;; cout (pretty s) ;; cout "] name: " ;;
      shader <- vector_at shaderTypes s ;;
      cout shader ;; cout nl ;;
      target <- vector_at targetNames t ;;
      shader <- vector_at shaderTypes s ;;
      parameters <- lib (IMaterialSchema.getShaderParameters schema target shader) ;;
      parameterCount <- lib (ICompoundProperty.getNumProperties parameters) ;;
      cout "    Shader Parameter Count: " ;; cout (pretty parameterCount) ;;
      cout nl)).

Fixpoint printNodes (node : IObject.t) : M unit :=
  let header := IObject.getHeader node in
  cout "Node name: " ;; cout (ObjectHeader.getName header) ;; cout nl ;;
  cout "Node full name: " ;; cout (ObjectHeader.getFullName header) ;;
  cout nl ;;
  cout "MetaData: " ;; cout (ObjectHeader.getMetaData_serialize header) ;;
  cout nl ;;
  (if IPolyMesh_matches header then printPolyMesh node
   else if ISubD_matches header then printSubD node
   else if IFaceSet_matches header then printFaceSet node
   else if ICurves_matches header then printCurves node
   else if IXform_matches header then printXform node
   else if IMaterial_matches header then printMaterial node
   else cout ("Object type ignored." +:+ nl)) ;;
  childCount <- lib (IObject.getNumChildren node) ;;
  for_range 0 childCount (fun i =>
    match IObject.getChild node i with
    | Returns child => printNodes child
    | Throws e => throw e
    end).

Definition printInfo (file : string) : M unit :=
  fun w =>
    (archive <- lib (getArchive file (files w !! file)) ;;
     let fileValid := IArchive.valid archive in
     cout (String (Ascii.ascii_of_nat 10) "file ") ;; cout file ;;
     cout (if fileValid then "" else " (invalid)") ;;
     cout (":" +:+ nl +:+ nl) ;;
     if fileValid then
       cout "file name: " ;;
       name <- lib (IArchive.getName archive) ;;
       cout name ;; cout nl ;;
       top <- lib (IArchive.getTop archive) ;;
       printNodes top
     else ret tt) w.

End Printers.

(** ** The helpers of fuzz_utils.h and the entry point *)

Section Harness.
Context {library : AbcLibrary} {environment : Environment}.

(** Modelled from the spec: [ignore_stdout] of fuzz_utils.h, which is not
    part of the sources at hand; the spec calls it the one-time step
    "silencing standard output".  It changes where the text goes, not the
    text. *)
Definition ignore_stdout : M unit :=
  fun w => (Ret tt, set_stdout_silenced true w).

(** Modelled from the spec: [buf_to_file] of fuzz_utils.h, which is not part
    of the sources at hand: "write buffer to a new temporary file, return its
    path".  [None] stands for the [NULL] the caller tests for. *)
Definition buf_to_file (data : list Byte.byte) : M (option string) :=
  fun w =>
    match tmpname (length (fs_log w)) with
    | Some path =>
        match files w !! path with
        | None =>
            (Ret (Some path),
             log_event (EvCreate (Some path))
                       (set_files (<[path := data]> (files w)) w))
        | Some _ => (Ret None, log_event (EvCreate None) w)
        end
    | None => (Ret None, log_event (EvCreate None) w)
    end.

(** Modelled from the spec: [delete_file] of fuzz_utils.h, which is not part
    of the sources at hand: "delete a file by path, report success/failure".
    The status is [0] exactly when the file has been removed. *)
Definition delete_file (path : string) : M Z :=
  fun w =>
    match files w !! path with
    | Some _ =>
        let status := unlink_status (length (fs_log w)) in
        if decide (status = 0%Z)
        then (Ret 0%Z,
              log_event (EvDelete path 0%Z)
                        (set_files (delete path (files w)) w))
        else (Ret status, log_event (EvDelete path status) w)
    | None => (Ret (-1)%Z, log_event (EvDelete path (-1)%Z) w)
    end.

Definition get_initialized : M bool := fun w => (Ret (initialized w), w).
Definition put_initialized (b : bool) : M unit :=
  fun w => (Ret tt, set_initialized b w).

(** [data] and [size] together are the list of bytes.  The handler writes
    [e.what()] and [std::endl]. *)
Definition LLVMFuzzerTestOneInput (data : list Byte.byte) : M Z :=
  init <- get_initialized ;;
  (if negb init then ignore_stdout ;; put_initialized true else ret tt) ;;
  file <- buf_to_file data ;;
  match file with
  | None => exit EXIT_FAILURE
  | Some file =>
      try_catch_std (printInfo file) (fun what => cout what ;; cout nl) ;;
      status <- delete_file file ;;
      if decide (status <> 0%Z) then exit EXIT_FAILURE
      else ret EXIT_SUCCESS
  end.

End Harness.

(** ** Notions used to state the properties *)

(** A world in which nothing has happened yet, and what a computation
    writes and how it ends when started there. *)
Definition fresh_world : world := mkWorld "" false false ∅ [].
Definition result_of {A} (m : M A) : outcome A := (m fresh_world).1.
Definition text_of {A} (m : M A) : string := stdout (m fresh_world).2.

(** The text [t] added at the end of the standard output of [w]. *)
Definition printed (t : string) (w : world) : world :=
  set_stdout (stdout w +:+ t) w.

Definition join (l : list string) : string := foldr String.append "" l.

(** The ways a call into the library can end. *)
Definition library_outcome {A} (o : outcome A) : Prop :=
  match o with
  | Ret _ | Throw _ => True
  | Exit _ | Undefined => False
  end.

(** A computation that only writes: whatever the world it starts in, it
    ends the same way after adding the same text, and it ends by returning
    or by an exception. *)
Definition printer {A} (m : M A) : Prop :=
  library_outcome (result_of m) /\
  forall w, m w = (result_of m, printed (text_of m) w).

(** Two computations that do the same in every world. *)
Definition same {A} (m m' : M A) : Prop := forall w, m w = m' w.
Infix "==" := same (at level 70, no associativity) : harness_scope.

(** The definitions of this section follow the wording of the
    specification; the properties below compare the printers with them. *)
Section Specification.
Context {library : AbcLibrary}.

(** The known kinds of node, and the order in which a header is tested
    against them. *)
Inductive kind : Type :=
  | Mesh
  | SubdivisionSurface
  | FaceSet
  | Curve
  | Transform
  | Material.

Definition priority_order : list kind :=
  [Mesh; SubdivisionSurface; FaceSet; Curve; Transform; Material].

Definition matches (k : kind) (header : ObjectHeader.t) : bool :=
  match k with
  | Mesh => IPolyMesh_matches header
  | SubdivisionSurface => ISubD_matches header
  | FaceSet => IFaceSet_matches header
  | Curve => ICurves_matches header
  | Transform => IXform_matches header
  | Material => IMaterial_matches header
  end.

(** First match wins. *)
Definition classify (header : ObjectHeader.t) : option kind :=
  List.find (fun k => matches k header) priority_order.

Definition kind_report (k : option kind) (node : IObject.t) : M unit :=
  match k with
  | Some Mesh => printPolyMesh node
  | Some SubdivisionSurface => printSubD node
  | Some FaceSet => printFaceSet node
  | Some Curve => printCurves node
  | Some Transform => printXform node
  | Some Material => printMaterial node
  | None => cout ("Object type ignored." +:+ nl)
  end.

Definition general_information (header : ObjectHeader.t) : M unit :=
  cout "Node name: " ;; cout (ObjectHeader.getName header) ;; cout nl ;;
  cout "Node full name: " ;; cout (ObjectHeader.getFullName header) ;;
  cout nl ;;
  cout "MetaData: " ;; cout (ObjectHeader.getMetaData_serialize header) ;;
  cout nl.

(** The block of one node: its general information, then the report of its
    kind. *)
Definition node_block (node : IObject.t) : M unit :=
  general_information (IObject.getHeader node) ;;
  kind_report (classify (IObject.getHeader node)) node.

Definition visit_children (visit : IObject.t -> M unit) (node : IObject.t)
  : M unit :=
  childCount <- lib (IObject.getNumChildren node) ;;
  for_range 0 childCount (fun i =>
    child <- lib (IObject.getChild node i) ;; visit child).

(** The nodes below and including [node], depth first, a node before its
    children, the children by increasing index. *)
Fixpoint preorder (node : IObject.t) : list IObject.t :=
  node ::
  match IObject.getNumChildren node with
  | Returns childCount =>
      flat_map (fun i =>
                  match IObject.getChild node i with
                  | Returns child => preorder child
                  | Throws _ => []
                  end)
               (seq 0 childCount)
  | Throws _ => []
  end.









End Specification.

(** The world after the one-time set-up at the head of the entry point. *)
Definition silenced_once (w : world) : world :=
  if initialized w then w
  else set_initialized true (set_stdout_silenced true w).

(** A world whose storage holds just [content] at [file]. *)
Definition holding (file : string) (content : list Byte.byte) : world :=
  set_files {[ file := content ]} fresh_world.

Section Inspection.
Context {library : AbcLibrary}.

(** How [printInfo] ends on a file with that content, and what it writes. *)
Definition inspection (file : string) (content : list Byte.byte)
  : outcome unit * string :=
  let r := printInfo file (holding file content) in (r.1, stdout r.2).

(** The text of one invocation whose temporary file is [file]: what
    [printInfo] writes, then the message of a caught exception. *)
Definition invocation_text (file : string) (content : list Byte.byte)
  : string :=
  (inspection file content).2 +:+
  match (inspection file content).1 with
  | Throw (StdException what) => what +:+ nl
  | _ => ""
  end.

End Inspection.

(** ** A small library and environments to run the harness on *)

Module Sample.

Definition absent {A} : call A := Throws (StdException "wrong schema").

Definition no_child : nat -> call IObject.t :=
  fun _ => Throws (StdException "no such child").

Definition plain (header : ObjectHeader.t) (childCount : nat)
    (child : nat -> call IObject.t) : IObject.t :=
  IObject.mk header absent absent absent absent absent absent
             (Returns childCount) child.

Definition named (names : list string) : nat -> call PropertyHeader.t :=
  fun p =>
    match names !! p with
    | Some name => Returns (PropertyHeader.mk kArrayProperty name)
    | None => Throws (StdException "no such property")
    end.

Definition samples (n : nat) : call IGeomParam.t :=
  Returns (IGeomParam.mk (Returns n)).

Definition arb : call ICompoundProperty.t :=
  Returns (ICompoundProperty.mk (Returns 1) (named ["Cd"])).

Definition mesh_schema (names : list string) : IPolyMeshSchema.t :=
  IPolyMeshSchema.mk (Returns (length names)) (named names) (Returns 4)
                     (samples 3) (samples 2) arb.

Definition subd_schema (names : list string) : ISubDSchema.t :=
  ISubDSchema.mk (Returns (length names)) (named names) (Returns 4)
                 (samples 2) arb
                 (Returns "1") (Returns "1") (Returns "0") (Returns "1").

Definition xform_schema : IXformSchema.t :=
  IXformSchema.mk (Returns 1) (Returns 3).

Definition xform (name full : string) (childCount : nat)
    (child : nat -> call IObject.t) : IObject.t :=
  IObject.mk (ObjectHeader.mk name full "schema=AbcGeom_Xform_v3")
             absent absent absent absent (Returns xform_schema) absent
             (Returns childCount) child.

Definition mesh (name full : string) (names : list string) : IObject.t :=
  IObject.mk (ObjectHeader.mk name full "schema=AbcGeom_PolyMesh_v1")
             (Returns (mesh_schema names)) absent absent absent absent absent
             (Returns 0) no_child.

Definition subd (name full : string) (names : list string) : IObject.t :=
  IObject.mk (ObjectHeader.mk name full "schema=AbcGeom_SubD_v1")
             absent (Returns (subd_schema names)) absent absent absent absent
             (Returns 0) no_child.

Definition material (name full : string) : IObject.t :=
  IObject.mk (ObjectHeader.mk name full "schema=AbcMaterial_Material_v1")
             absent absent absent absent absent
             (Returns (IMaterialSchema.mk (fun _ => Returns ["surface"])
                                          (fun _ _ => arb)))
             (Returns 0) no_child.

Definition children (l : list IObject.t) : nat -> call IObject.t :=
  fun i =>
    match l !! i with
    | Some child => Returns child
    | None => Throws (StdException "no such child")
    end.

(** The root with a transform that holds a mesh, then a subdivision
    surface, then a material. *)
Definition scene : IObject.t :=
  plain (ObjectHeader.mk "ABC" "/" "") 3
    (children
       [ xform "xf" "/xf" 1 (children [mesh "m" "/xf/m" ["P"; "N"; "width"]]);
         subd "sd" "/sd" ["N"; "uv"];
         material "mat" "/mat" ]).

(** A root whose second child cannot be read. *)
Definition truncated (e : exn) : IObject.t :=
  plain (ObjectHeader.mk "ABC" "/" "") 2
    (fun i =>
       match i with
       | O => Returns (xform "xf" "/xf" 0 no_child)
       | S _ => Throws e
       end).

Definition lone_xform : IObject.t := xform "xf" "/xf" 0 no_child.

Definition archive_of (top : IObject.t) : IArchive.t :=
  IArchive.mk true (Returns "archive") (Returns top).

Definition invalid_archive : IArchive.t :=
  IArchive.mk false (Throws (StdException "invalid archive"))
              (Throws (StdException "invalid archive")).

(** The first byte of the file selects what the library finds in it. *)
Definition library : AbcLibrary := {|
  getArchive := fun file content =>
    match content with
    | Some (Byte.x01 :: _) => Returns (archive_of scene)
    | Some (Byte.x02 :: _) => Returns invalid_archive
    | Some (Byte.x03 :: _) => Throws ForeignException
    | Some (Byte.x04 :: _) => Returns (archive_of lone_xform)
    | Some (Byte.x05 :: _) =>
        Returns (archive_of (truncated (StdException "Ogawa: read error")))
    | Some (Byte.x06 :: _) => Returns (archive_of (truncated ForeignException))
    | _ => Throws (StdException "Ogawa: not an archive")
    end;
  IPolyMesh_matches := fun h =>
    String.eqb (ObjectHeader.getMetaData_serialize h) "schema=AbcGeom_PolyMesh_v1";
  ISubD_matches := fun h =>
    String.eqb (ObjectHeader.getMetaData_serialize h) "schema=AbcGeom_SubD_v1";
  IFaceSet_matches := fun h =>
    String.eqb (ObjectHeader.getMetaData_serialize h) "schema=AbcGeom_FaceSet_v1";
  ICurves_matches := fun h =>
    String.eqb (ObjectHeader.getMetaData_serialize h) "schema=AbcGeom_Curve_v2";
  IXform_matches := fun h =>
    String.eqb (ObjectHeader.getMetaData_serialize h) "schema=AbcGeom_Xform_v3";
  IMaterial_matches := fun h =>
    String.eqb (ObjectHeader.getMetaData_serialize h)
               "schema=AbcMaterial_Material_v1"
|}.

(** Every temporary file gets the same name, and removal works. *)
Definition same_name : Environment := {|
  tmpname := fun _ => Some "/tmp/fuzz-file";
  unlink_status := fun _ => 0%Z
|}.

(** Every temporary file gets a name of its own. *)
Definition new_names : Environment := {|
  tmpname := fun n => Some ("/tmp/fuzz-" +:+ pretty n);
  unlink_status := fun _ => 0%Z
|}.

(** No temporary file can be made. *)
Definition no_space : Environment := {|
  tmpname := fun _ => None;
  unlink_status := fun _ => 0%Z
|}.

(** Files cannot be removed. *)
Definition read_only : Environment := {|
  tmpname := fun _ => Some "/tmp/fuzz-file";
  unlink_status := fun _ => (-1)%Z
|}.

(** One invocation on the sample library. *)
Definition run (environment : Environment) (data : list Byte.byte)
    (w : world) : outcome Z * world :=
  @LLVMFuzzerTestOneInput library environment data w.

(** Two invocations in a row on the same bytes, each temporary file with a
    name of its own. *)
Definition first_run : outcome Z * world := run new_names [Byte.x04] fresh_world.
Definition second_run : outcome Z * world := run new_names [Byte.x04] first_run.2.

End Sample.

(** ** Further notions: variations of the library's answers *)

(** The exception, if any, met when the typed view of [node] for the kind
    [k] is built: the first statement of each typed printer. *)
Definition typed_view_error (k : kind) (node : IObject.t) : option exn :=
  match k with
  | Mesh =>
      match IObject.asPolyMesh node with Throws e => Some e | Returns _ => None end
  | SubdivisionSurface =>
      match IObject.asSubD node with Throws e => Some e | Returns _ => None end
  | FaceSet =>
      match IObject.asFaceSet node with Throws e => Some e | Returns _ => None end
  | Curve =>
      match IObject.asCurves node with Throws e => Some e | Returns _ => None end
  | Transform =>
      match IObject.asXform node with Throws e => Some e | Returns _ => None end
  | Material =>
      match IObject.asMaterial node with Throws e => Some e | Returns _ => None end
  end.

(** [node] with other answers to [getChild]. *)
Definition with_children (node : IObject.t) (child : nat -> call IObject.t)
  : IObject.t :=
  IObject.mk (IObject.getHeader node) (IObject.asPolyMesh node)
             (IObject.asSubD node) (IObject.asFaceSet node)
             (IObject.asCurves node) (IObject.asXform node)
             (IObject.asMaterial node) (IObject.getNumChildren node) child.

(** A property header with another property type. *)
Definition retyped_header (type : PropertyType) (header : call PropertyHeader.t)
  : call PropertyHeader.t :=
  match header with
  | Returns h => Returns (PropertyHeader.mk type (PropertyHeader.getName h))
  | Throws e => Throws e
  end.

(** The schemas with other property types in their property headers. *)
Definition retyped_mesh (types : nat -> PropertyType)
    (schema : IPolyMeshSchema.t) : IPolyMeshSchema.t :=
  IPolyMeshSchema.mk
    (IPolyMeshSchema.getNumProperties schema)
    (fun p => retyped_header (types p) (IPolyMeshSchema.getPropertyHeader schema p))
    (IPolyMeshSchema.getNumSamples schema)
    (IPolyMeshSchema.getNormalsParam schema)
    (IPolyMeshSchema.getUVsParam schema)
    (IPolyMeshSchema.getArbGeomParams schema).

Definition retyped_curves (types : nat -> PropertyType)
    (schema : ICurvesSchema.t) : ICurvesSchema.t :=
  ICurvesSchema.mk
    (ICurvesSchema.getNumProperties schema)
    (fun p => retyped_header (types p) (ICurvesSchema.getPropertyHeader schema p))
    (ICurvesSchema.getNumSamples schema)
    (ICurvesSchema.getNormalsParam schema)
    (ICurvesSchema.getUVsParam schema)
    (ICurvesSchema.getArbGeomParams schema).

Definition retyped_subd (types : nat -> PropertyType)
    (schema : ISubDSchema.t) : ISubDSchema.t :=
  ISubDSchema.mk
    (ISubDSchema.getNumProperties schema)
    (fun p => retyped_header (types p) (ISubDSchema.getPropertyHeader schema p))
    (ISubDSchema.getNumSamples schema)
    (ISubDSchema.getUVsParam schema)
    (ISubDSchema.getArbGeomParams schema)
    (ISubDSchema.getSubdivisionSchemeProperty schema)
    (ISubDSchema.getFaceVaryingInterpolateBoundaryProperty schema)
    (ISubDSchema.getFaceVaryingPropagateCornersProperty schema)
    (ISubDSchema.getInterpolateBoundaryProperty schema).

(** The text of the children of [node] below index [i], each child with
    everything under it. *)
Definition children_text {library : AbcLibrary} (node : IObject.t) (i : nat)
  : string :=
  join (map (fun j =>
               match IObject.getChild node j with
               | Returns child => text_of (printNodes child)
               | Throws _ => EmptyString
               end)
            (seq 0 i)).

(** The four lines that end the report of a subdivision surface. *)
Definition scheme_lines (scheme fvib fvpc ib : string) : string :=
  "  Subdivision Scheme: " +:+ scheme +:+ nl +:+
  "  Face Varying Interpolate Boundary: " +:+ fvib +:+ nl +:+
  "  Face Varying Propagate Corners: " +:+ fvpc +:+ nl +:+
  "  Interpolate Boundary: " +:+ ib +:+ nl.

(** More nodes to run the printers on. *)
Module MoreSamples.

(** A node whose header is that of a transform, but whose transform view
    cannot be built; it has a child. *)
Definition broken_xform : IObject.t :=
  Sample.plain (ObjectHeader.mk "xf" "/xf" "schema=AbcGeom_Xform_v3") 1
               (Sample.children [Sample.lone_xform]).

(** The lone transform with answers to [getChild] that nobody asks for. *)
Definition crowded : nat -> call IObject.t := fun _ => Returns Sample.scene.

Definition subd_node : IObject.t := Sample.subd "sd" "/sd" ["N"; "uv"].

End MoreSamples.

(** A library whose factory opens every file as the smallest archive that
    holds a transform: the root container with one transform below it. *)
Module MinimalArchive.

Definition root : IObject.t :=
  Sample.plain (ObjectHeader.mk "ABC" "/" "") 1
               (Sample.children [Sample.lone_xform]).

Definition library : AbcLibrary := {|
  getArchive := fun _ _ => Returns (Sample.archive_of root);
  IPolyMesh_matches := @IPolyMesh_matches Sample.library;
  ISubD_matches := @ISubD_matches Sample.library;
  IFaceSet_matches := @IFaceSet_matches Sample.library;
  ICurves_matches := @ICurves_matches Sample.library;
  IXform_matches := @IXform_matches Sample.library;
  IMaterial_matches := @IMaterial_matches Sample.library
|}.

End MinimalArchive.

(** * Properties *)

(** ** Text and worlds *)

Lemma append_assoc (a b c : string) : (a +:+ b) +:+ c = a +:+ (b +:+ c).
Proof.
  induction a as [|x a IH]; [reflexivity|].
  change (String x ((a +:+ b) +:+ c) = String x (a +:+ (b +:+ c))).
  now rewrite IH.
Qed.

Lemma append_nil_r (a : string) : a +:+ "" = a.
Proof.
  induction a as [|x a IH]; [reflexivity|].
  change (String x (a +:+ "") = String x a). now rewrite IH.
Qed.

Lemma printed_nil w : printed "" w = w.
Proof. destruct w; unfold printed, set_stdout; simpl. now rewrite append_nil_r. Qed.

Lemma printed_printed a b w : printed b (printed a w) = printed (a +:+ b) w.
Proof. unfold printed, set_stdout; simpl. now rewrite append_assoc. Qed.

Lemma join_app (l l' : list string) : join (l ++ l') = join l +:+ join l'.
Proof.
  unfold join. induction l as [|x l IH]; simpl; [reflexivity|].
  now rewrite IH, append_assoc.
Qed.

(** ** Sequencing *)

Lemma bind_assoc {A B C} (m : M A) (k : A -> M B) (k' : B -> M C) :
  (x <- (y <- m ;; k y) ;; k' x) == (y <- m ;; x <- k y ;; k' x).
Proof. intros w. unfold bind. destruct (m w) as [[a| | |] w']; reflexivity. Qed.

Lemma bind_same {A B} (m m' : M A) (k k' : A -> M B) :
  m == m' -> (forall a, k a == k' a) -> (x <- m ;; k x) == (x <- m' ;; k' x).
Proof.
  intros Hm Hk w. unfold bind. rewrite Hm.
  destruct (m' w) as [[a| | |] w']; [apply Hk | reflexivity..].
Qed.

Lemma for_range_same from count (body body' : nat -> M unit) :
  (forall i, body i == body' i) ->
  for_range from count body == for_range from count body'.
Proof.
  intros H. revert from. induction count as [|count IH]; intros from.
  - intros w. reflexivity.
  - simpl. apply bind_same; [apply H | intros _; apply IH].
Qed.

Lemma same_refl {A} (m : M A) : m == m.
Proof. intros w. reflexivity. Qed.

Lemma same_trans {A} (m1 m2 m3 : M A) : m1 == m2 -> m2 == m3 -> m1 == m3.
Proof. intros H1 H2 w. now rewrite H1. Qed.

Lemma same_sym {A} (m1 m2 : M A) : m1 == m2 -> m2 == m1.
Proof. intros H w. now rewrite H. Qed.

(** ** Computations that only write *)

Lemma printer_same {A} (m m' : M A) : m == m' -> printer m -> printer m'.
Proof.
  intros H [Ho Hm]. unfold printer, result_of, text_of in *.
  rewrite <- !H. split; [exact Ho|]. intros w. now rewrite <- H.
Qed.

Lemma printer_ret {A} (a : A) : printer (ret a).
Proof. split; [exact I|]. intros w. unfold ret, result_of, text_of. simpl. now rewrite printed_nil. Qed.

Lemma printer_throw {A} (e : exn) : printer (@throw A e).
Proof. split; [exact I|]. intros w. unfold throw, result_of, text_of. simpl. now rewrite printed_nil. Qed.

Lemma printer_lib {A} (c : call A) : printer (lib c).
Proof. destruct c; [apply printer_ret | apply printer_throw]. Qed.

Lemma printer_cout (s : string) : printer (cout s).
Proof. split; [exact I|]. intros w. reflexivity. Qed.

Lemma bind_printer_run {A B} (m : M A) (k : A -> M B) w :
  printer m ->
  (x <- m ;; k x) w =
  match result_of m with
  | Ret a => k a (printed (text_of m) w)
  | Throw e => (Throw e, printed (text_of m) w)
  | Exit s => (Exit s, printed (text_of m) w)
  | Undefined => (Undefined, printed (text_of m) w)
  end.
Proof.
  intros [_ Hm]. unfold bind. rewrite Hm. destruct (result_of m); reflexivity.
Qed.

Lemma result_of_bind {A B} (m : M A) (k : A -> M B) :
  printer m -> (forall a, printer (k a)) ->
  result_of (x <- m ;; k x) =
  match result_of m with
  | Ret a => result_of (k a)
  | Throw e => Throw e
  | Exit s => Exit s
  | Undefined => Undefined
  end.
Proof.
  intros Hm Hk. unfold result_of at 1. rewrite bind_printer_run by exact Hm.
  destruct (result_of m) as [a| | |]; try reflexivity.
  destruct (Hk a) as [_ Hka]. now rewrite Hka.
Qed.

Lemma text_of_bind {A B} (m : M A) (k : A -> M B) :
  printer m -> (forall a, printer (k a)) ->
  text_of (x <- m ;; k x) =
  text_of m +:+ match result_of m with
                | Ret a => text_of (k a)
                | _ => ""
                end.
Proof.
  intros Hm Hk. unfold text_of at 1. rewrite bind_printer_run by exact Hm.
  destruct (result_of m) as [a| | |]; simpl; rewrite ?append_nil_r; try reflexivity.
  destruct (Hk a) as [_ Hka]. now rewrite Hka.
Qed.

Lemma printer_bind {A B} (m : M A) (k : A -> M B) :
  printer m -> (forall a, printer (k a)) -> printer (x <- m ;; k x).
Proof.
  intros Hm Hk. split.
  - rewrite result_of_bind by assumption. destruct Hm as [Ho _].
    destruct (result_of m) as [a| | |]; try exact Ho. apply Hk.
  - intros w. rewrite result_of_bind, text_of_bind by assumption.
    rewrite bind_printer_run by exact Hm.
    destruct (result_of m) as [a| | |]; rewrite ?append_nil_r; try reflexivity.
    destruct (Hk a) as [_ Hka]. now rewrite Hka, printed_printed.
Qed.

Lemma printer_for_range from count (body : nat -> M unit) :
  (forall i, printer (body i)) -> printer (for_range from count body).
Proof.
  intros H. revert from. induction count as [|count IH]; intros from; simpl.
  - apply printer_ret.
  - apply printer_bind; [apply H | intros _; apply IH].
Qed.

Lemma printer_if {A} (b : bool) (m m' : M A) :
  printer m -> printer m' -> printer (if b then m else m').
Proof. destruct b; auto. Qed.


Ltac printer_step :=
  first [ apply printer_ret | apply printer_throw | apply printer_lib
        | apply printer_cout | assumption
        | apply printer_for_range; intros ?
        | apply printer_if
        | apply printer_bind; [|intros ?]
        | progress cbv zeta ].

Ltac printer_tac := repeat printer_step.

(** Induction on a node: a property that passes from the children a node
    hands out to the node holds of every node. *)
Lemma IObject_induction (P : IObject.t -> Prop) :
  (forall node,
      (forall i child, IObject.getChild node i = Returns child -> P child) ->
      P node) ->
  forall node, P node.
Proof.
  intros step. fix IH 1. intros node. apply step. intros i child.
  destruct (IObject.getChild node i) as [c|e] eqn:E.
  - intros [= <-]. apply IH.
  - discriminate.
Qed.

Section PrinterFacts.
Context {library : AbcLibrary}.

Lemma printer_printMeshAttributes schema : printer (printMeshAttributes schema).
Proof. unfold printMeshAttributes. printer_tac. Qed.

Lemma printer_printSubDAttributes schema : printer (printSubDAttributes schema).
Proof. unfold printSubDAttributes. printer_tac. Qed.

Lemma printer_printCurvesAttributes schema : printer (printCurvesAttributes schema).
Proof. unfold printCurvesAttributes. printer_tac. Qed.

Lemma printer_printPolyMesh node : printer (printPolyMesh node).
Proof. unfold printPolyMesh. printer_tac. Qed.

Lemma printer_printSubD node : printer (printSubD node).
Proof.
  unfold printSubD. printer_tac.
Qed.

Lemma printer_printFaceSet node : printer (printFaceSet node).
Proof. unfold printFaceSet. printer_tac. Qed.

Lemma printer_printCurves node : printer (printCurves node).
Proof. unfold printCurves. printer_tac. Qed.

Lemma printer_printXform node : printer (printXform node).
Proof. unfold printXform. printer_tac. Qed.

Lemma printer_printMaterial node : printer (printMaterial node).
Proof. unfold printMaterial. printer_tac. Qed.

Lemma printer_kind_report k node : printer (kind_report k node).
Proof.
  destruct k as [[]|]; simpl;
    auto using printer_printPolyMesh, printer_printSubD, printer_printFaceSet,
      printer_printCurves, printer_printXform, printer_printMaterial,
      printer_cout.
Qed.

Lemma printer_general_information header : printer (general_information header).
Proof. unfold general_information. printer_tac. Qed.

Lemma printer_node_block node : printer (node_block node).
Proof.
  unfold node_block. apply printer_bind;
    [apply printer_general_information | intros _; apply printer_kind_report].
Qed.

End PrinterFacts.

(** ** The traversal *)

Section Traversal.
Context {library : AbcLibrary}.

Lemma dispatch_classify header node :
  (if IPolyMesh_matches header then printPolyMesh node
   else if ISubD_matches header then printSubD node
   else if IFaceSet_matches header then printFaceSet node
   else if ICurves_matches header then printCurves node
   else if IXform_matches header then printXform node
   else if IMaterial_matches header then printMaterial node
   else cout ("Object type ignored." +:+ nl))
  = kind_report (classify header) node.
Proof.
  unfold classify, priority_order, matches. simpl.
  destruct (IPolyMesh_matches header); [reflexivity|].
  destruct (ISubD_matches header); [reflexivity|].
  destruct (IFaceSet_matches header); [reflexivity|].
  destruct (ICurves_matches header); [reflexivity|].
  destruct (IXform_matches header); [reflexivity|].
  destruct (IMaterial_matches header); reflexivity.
Qed.

Lemma visit_child_same (visit : IObject.t -> M unit) node i :
  match IObject.getChild node i with
  | Returns child => visit child
  | Throws e => throw e
  end == (child <- lib (IObject.getChild node i) ;; visit child).
Proof. intros w. destruct (IObject.getChild node i); reflexivity. Qed.

Lemma printNodes_unfold node :
  printNodes node =
  (let header := IObject.getHeader node in
  cout "Node name: " ;; cout (ObjectHeader.getName header) ;; cout nl ;;
  cout "Node full name: " ;; cout (ObjectHeader.getFullName header) ;;
  cout nl ;;
  cout "MetaData: " ;; cout (ObjectHeader.getMetaData_serialize header) ;;
  cout nl ;;
  (if IPolyMesh_matches header then printPolyMesh node
   else if ISubD_matches header then printSubD node
   else if IFaceSet_matches header then printFaceSet node
   else if ICurves_matches header then printCurves node
   else if IXform_matches header then printXform node
   else if IMaterial_matches header then printMaterial node
   else cout ("Object type ignored." +:+ nl)) ;;
  childCount <- lib (IObject.getNumChildren node) ;;
  for_range 0 childCount (fun i =>
    match IObject.getChild node i with
    | Returns child => printNodes child
    | Throws e => throw e
    end)).
Proof. destruct node; reflexivity. Qed.

Lemma printNodes_structure node :
  printNodes node ==
  (general_information (IObject.getHeader node) ;;
   kind_report (classify (IObject.getHeader node)) node ;;
   visit_children printNodes node).
Proof.
  rewrite printNodes_unfold. cbv zeta. unfold general_information.
  repeat (eapply same_trans; [|apply same_sym, bind_assoc];
          apply bind_same; [apply same_refl|intros _]).
  apply bind_same; [apply same_refl|intros _].
  rewrite dispatch_classify.
  apply bind_same; [apply same_refl|intros _].
  unfold visit_children.
  apply bind_same; [apply same_refl|intros childCount].
  apply for_range_same. intros i. apply visit_child_same.
Qed.

Lemma printer_printNodes node : printer (printNodes node).
Proof.
  induction node as [node IH] using IObject_induction.
  rewrite printNodes_unfold. cbv zeta.
  repeat (apply printer_bind; [printer_tac|intros ?]).
  apply printer_for_range. intros i.
  destruct (IObject.getChild node i) as [child|e] eqn:E;
    [eapply IH; exact E | apply printer_throw].
Qed.

Lemma printInfo_determined file content :
  exists o t, library_outcome o /\
    forall w, files w !! file = content -> printInfo file w = (o, printed t w).
Proof.
  set (m := (archive <- lib (getArchive file content) ;;
     let fileValid := IArchive.valid archive in
     cout (String (Ascii.ascii_of_nat 10) "file ") ;; cout file ;;
     cout (if fileValid then "" else " (invalid)") ;;
     cout (":" +:+ nl +:+ nl) ;;
     if fileValid then
       cout "file name: " ;;
       name <- lib (IArchive.getName archive) ;;
       cout name ;; cout nl ;;
       top <- lib (IArchive.getTop archive) ;;
       printNodes top
     else ret tt)).
  assert (Hm : printer m).
  { unfold m. printer_tac. apply printer_printNodes. }
  exists (result_of m), (text_of m). split; [apply Hm|].
  intros w <-. unfold printInfo. apply (proj2 Hm).
Qed.

(** What [List.find] finds is the first element that passes the test. *)
Lemma find_first {A} (f : A -> bool) (l : list A) (x : A) :
  List.find f l = Some x ->
  f x = true /\
  exists before after,
    l = before ++ x :: after /\ forall y, In y before -> f y = false.
Proof.
  induction l as [|a l IH]; simpl; [discriminate|].
  destruct (f a) eqn:E.
  - intros [= <-]. split; [exact E|]. exists [], l. split; [reflexivity|].
    intros y [].
  - intros H. destruct (IH H) as [Hx (before & after & -> & Hb)].
    split; [exact Hx|]. exists (a :: before), after. split; [reflexivity|].
    intros y [<-|Hy]; [exact E | now apply Hb].
Qed.

Lemma priority_order_complete k : In k priority_order.
Proof. destruct k; simpl; tauto. Qed.

(** C3: every visited node gets, after its general information, the report
    of the first kind in the order mesh, subdivision surface, face set,
    curve, transform, material that its header matches, and of no other
    kind; a header that matches no kind gets the "Object type ignored."
    report instead.  The children are visited after that. *)
Theorem printNodes_first_match node :
  printNodes node ==
    (general_information (IObject.getHeader node) ;;
     kind_report (classify (IObject.getHeader node)) node ;;
     visit_children printNodes node) /\
  priority_order = [Mesh; SubdivisionSurface; FaceSet; Curve; Transform; Material] /\
  match classify (IObject.getHeader node) with
  | Some k =>
      matches k (IObject.getHeader node) = true /\
      exists before after,
        priority_order = before ++ k :: after /\
        forall k', In k' before -> matches k' (IObject.getHeader node) = false
  | None =>
      (forall k, matches k (IObject.getHeader node) = false) /\
      kind_report None node = cout ("Object type ignored." +:+ nl)
  end.
Proof.
  split; [apply printNodes_structure|]. split; [reflexivity|].
  destruct (classify (IObject.getHeader node)) as [k|] eqn:E.
  - exact (find_first (fun k' => matches k' (IObject.getHeader node)) _ _ E).
  - split; [|reflexivity]. intros k.
    exact (find_none (fun k' => matches k' (IObject.getHeader node)) _ E k
             (priority_order_complete k)).
Qed.

(** C7: the report of a material is the line giving a target count of
    zero and nothing else, whatever the schema holds: the loop over the
    targets runs over an empty vector.  (When the material view of the node
    cannot be built, that exception leaves the printer and nothing is
    written.) *)
Theorem printMaterial_no_targets node w :
  printMaterial node w =
  match IObject.asMaterial node with
  | Returns _ => (Ret tt, printed ("  Target Count: 0" +:+ nl) w)
  | Throws e => (Throw e, w)
  end.
Proof.
  unfold printMaterial. destruct (IObject.asMaterial node) as [schema|e].
  - unfold bind, lib, ret, cout, printed. simpl. unfold ret. f_equal.
    unfold set_stdout; simpl. f_equal.
    change (pretty 0) with "0". now rewrite !append_assoc.
  - reflexivity.
Qed.

Lemma result_of_same {A} (m m' : M A) : m == m' -> result_of m = result_of m'.
Proof. intros H. unfold result_of. now rewrite H. Qed.

Lemma text_of_same {A} (m m' : M A) : m == m' -> text_of m = text_of m'.
Proof. intros H. unfold text_of. now rewrite H. Qed.

Lemma for_range_returns from count (body : nat -> M unit) :
  (forall i, printer (body i)) ->
  result_of (for_range from count body) = Ret tt ->
  (forall i, from <= i < from + count -> result_of (body i) = Ret tt) /\
  text_of (for_range from count body) =
    join (map (fun i => text_of (body i)) (seq from count)).
Proof.
  intros Hp. revert from. induction count as [|count IH]; intros from; simpl.
  - intros _. split; [lia | reflexivity].
  - rewrite result_of_bind, text_of_bind
      by (auto using printer_for_range).
    destruct (result_of (body from)) as [[]| | |] eqn:E; try discriminate.
    intros H. destruct (IH _ H) as [Hr Ht]. split.
    + intros i Hi. destruct (decide (i = from)) as [->|]; [exact E|].
      apply Hr. lia.
    + now rewrite Ht.
Qed.

Lemma preorder_unfold node :
  preorder node =
  node ::
  match IObject.getNumChildren node with
  | Returns childCount =>
      flat_map (fun i =>
                  match IObject.getChild node i with
                  | Returns child => preorder child
                  | Throws _ => []
                  end)
               (seq 0 childCount)
  | Throws _ => []
  end.
Proof. destruct node; reflexivity. Qed.

Lemma join_cons (x : string) l : join (x :: l) = x +:+ join l.
Proof. reflexivity. Qed.

Lemma join_flat_map {A B} (f : B -> string) (g : A -> list B) (l : list A) :
  join (map f (flat_map g l)) = join (map (fun a => join (map f (g a))) l).
Proof.
  induction l as [|a l IH]; simpl; [reflexivity|].
  rewrite map_app, join_app, IH. reflexivity.
Qed.

Lemma printNodes_text node :
  result_of (printNodes node) = Ret tt ->
  text_of (printNodes node) =
    join (map (fun n => text_of (node_block n)) (preorder node)).
Proof.
  induction node as [node IH] using IObject_induction.
  assert (Hs : printNodes node ==
               (node_block node ;; visit_children printNodes node)).
  { eapply same_trans; [apply printNodes_structure|].
    apply same_sym, bind_assoc. }
  assert (Hv : forall i, printer (child <- lib (IObject.getChild node i) ;;
                                  printNodes child)).
  { intros i. apply printer_bind; [apply printer_lib|].
    intros child. apply printer_printNodes. }
  assert (Hc : printer (visit_children printNodes node)).
  { unfold visit_children. apply printer_bind; [apply printer_lib|].
    intros n. apply printer_for_range. exact Hv. }
  rewrite (result_of_same _ _ Hs), (text_of_same _ _ Hs).
  rewrite result_of_bind, text_of_bind
    by (auto using printer_node_block).
  destruct (result_of (node_block node)) as [[]| | |]; try discriminate.
  rewrite preorder_unfold, map_cons, join_cons. intros Hr. f_equal.
  unfold visit_children in *.
  destruct (IObject.getNumChildren node) as [n|e]; [|discriminate].
  change (result_of (for_range 0 n (fun i =>
            child <- lib (IObject.getChild node i) ;; printNodes child))
          = Ret tt) in Hr.
  change (text_of (for_range 0 n (fun i =>
            child <- lib (IObject.getChild node i) ;; printNodes child))
          = join (map (fun n => text_of (node_block n))
                   (flat_map (fun i =>
                      match IObject.getChild node i with
                      | Returns child => preorder child
                      | Throws _ => []
                      end) (seq 0 n)))).
  destruct (for_range_returns _ _ _ Hv Hr) as [Hi ->].
  rewrite join_flat_map. f_equal. apply List.map_ext_in.
  intros i Hin. apply List.in_seq in Hin. specialize (Hi i Hin).
  destruct (IObject.getChild node i) as [child|e] eqn:E; [|discriminate].
  apply (IH i child E). exact Hi.
Qed.

(** C4: the traversal is depth first and in pre-order.  Every node,
    whatever its kind, writes its block (general information, then the
    report of its kind) and then visits its children by increasing index;
    and when [printNodes] returns, what it has written is the sequence of
    the blocks of the nodes in pre-order: a node before its children, the
    children by increasing index. *)
Theorem printNodes_preorder :
  (forall node,
      printNodes node == (node_block node ;; visit_children printNodes node)) /\
  (forall node w w',
      printNodes node w = (Ret tt, w') ->
      w' = printed (join (map (fun n => text_of (node_block n))
                              (preorder node))) w).
Proof.
  split.
  - intros node. eapply same_trans; [apply printNodes_structure|].
    apply same_sym, bind_assoc.
  - intros node w w'. destruct (printer_printNodes node) as [_ Hp].
    rewrite Hp. intros [= Hr <-]. now rewrite printNodes_text.
Qed.

Lemma cout_then {A} (s : string) (k : M A) w :
  (cout s ;; k) w = k (printed s w).
Proof. reflexivity. Qed.

Lemma cout_last (s : string) w : cout s w = (Ret tt, printed s w).
Proof. reflexivity. Qed.

Lemma returns_then {A B} (a : A) (k : A -> M B) w :
  (x <- lib (Returns a) ;; k x) w = k a w.
Proof. reflexivity. Qed.

Lemma throws_then {A B} (e : exn) (k : A -> M B) w :
  (x <- lib (Throws e) ;; k x) w = (Throw e, w).
Proof. reflexivity. Qed.

Lemma bind_then {A B C} (m : M A) (k : A -> M B) (k' : B -> M C) w :
  (x <- (y <- m ;; k y) ;; k' x) w = (y <- m ;; x <- k y ;; k' x) w.
Proof. apply bind_assoc. Qed.

Ltac run_step :=
  first [ rewrite bind_then | rewrite cout_then | rewrite returns_then | rewrite throws_then
        | rewrite cout_last | rewrite printed_printed ].
Ltac run := repeat run_step.









(** C6: when the factory hands back an archive that is not valid, the
    output is the file line with the " (invalid)" marker after the file name
    and nothing more: no "file name:" line and no node report. *)
Theorem printInfo_invalid file w archive :
  getArchive file (files w !! file) = Returns archive ->
  IArchive.valid archive = false ->
  printInfo file w =
  (Ret tt,
   printed (nl +:+ "file " +:+ file +:+ " (invalid)" +:+ ":" +:+ nl +:+ nl) w).
Proof.
  intros Ha Hv. unfold printInfo. rewrite Ha. rewrite returns_then. cbv zeta.
  rewrite Hv. run. reflexivity.
Qed.

Lemma then_return (m : M unit) w : (m ;; ret tt) w = m w.
Proof. unfold bind, ret. destruct (m w) as [[[]| | |] w']; reflexivity. Qed.

(** C9 (amended): for a valid archive whose root container matches no
    kind and holds a single transform without children, the output is the
    file line, the archive name and exactly two node blocks: the block of
    the root, which ends with "Object type ignored.", then the block of the
    transform, which ends with its sample count and its number of
    operations; the traversal visits these two nodes only. *)
Theorem printInfo_root_and_transform
    file w archive name top child schema samples ops :
  getArchive file (files w !! file) = Returns archive ->
  IArchive.valid archive = true ->
  IArchive.getName archive = Returns name ->
  IArchive.getTop archive = Returns top ->
  classify (IObject.getHeader top) = None ->
  IObject.getNumChildren top = Returns 1 ->
  IObject.getChild top 0 = Returns child ->
  classify (IObject.getHeader child) = Some Transform ->
  IObject.asXform child = Returns schema ->
  IXformSchema.getNumSamples schema = Returns samples ->
  IXformSchema.getNumOps schema = Returns ops ->
  IObject.getNumChildren child = Returns 0 ->
  printInfo file w =
  (Ret tt,
   printed (nl +:+ "file " +:+ file +:+ ":" +:+ nl +:+ nl +:+
            "file name: " +:+ name +:+ nl +:+
            "Node name: " +:+ ObjectHeader.getName (IObject.getHeader top) +:+ nl +:+
            "Node full name: " +:+ ObjectHeader.getFullName (IObject.getHeader top) +:+ nl +:+
            "MetaData: " +:+ ObjectHeader.getMetaData_serialize (IObject.getHeader top) +:+ nl +:+
            "Object type ignored." +:+ nl +:+
            "Node name: " +:+ ObjectHeader.getName (IObject.getHeader child) +:+ nl +:+
            "Node full name: " +:+ ObjectHeader.getFullName (IObject.getHeader child) +:+ nl +:+
            "MetaData: " +:+ ObjectHeader.getMetaData_serialize (IObject.getHeader child) +:+ nl +:+
            "  Sample Count: " +:+ pretty samples +:+ nl +:+
            "  Number of Ops: " +:+ pretty ops +:+ nl) w) /\
  preorder top = [top; child].
Proof.
  intros Ha Hv Hname Htop Hroot Hn1 Hc Hk Hx Hs Ho Hn0. split.
  - unfold printInfo. rewrite Ha. rewrite returns_then. cbv zeta.
    rewrite Hv, Hname, Htop. run.
    rewrite printNodes_structure. rewrite Hroot.
    unfold general_information, kind_report, visit_children.
    rewrite Hn1. run. simpl for_range. rewrite Hc. run.
    rewrite then_return, printNodes_structure. rewrite Hk.
    unfold general_information, kind_report, printXform, visit_children.
    rewrite Hx, Hn0. run. rewrite Hs. run. rewrite Ho. run.
    simpl for_range. unfold ret. rewrite !append_assoc. reflexivity.
  - rewrite preorder_unfold, Hn1. simpl. rewrite Hc.
    rewrite preorder_unfold, Hn0. reflexivity.
Qed.

End Traversal.

(** ** The entry point *)

Section EntryPoint.
Context {library : AbcLibrary} {environment : Environment}.

Lemma entry_setup {A} (k : M A) w :
  (init <- get_initialized ;;
   (if negb init then ignore_stdout ;; put_initialized true else ret tt) ;;
   k) w = k (silenced_once w).
Proof.
  unfold silenced_once, bind, get_initialized. simpl.
  destruct (initialized w); reflexivity.
Qed.

Lemma buf_to_file_created data w path :
  tmpname (length (fs_log w)) = Some path -> files w !! path = None ->
  buf_to_file data w =
  (Ret (Some path),
   log_event (EvCreate (Some path)) (set_files (<[path := data]> (files w)) w)).
Proof. intros Ht Hf. unfold buf_to_file. now rewrite Ht, Hf. Qed.

Lemma buf_to_file_failed data w :
  match tmpname (length (fs_log w)) with
  | Some path => is_Some (files w !! path)
  | None => True
  end ->
  buf_to_file data w = (Ret None, log_event (EvCreate None) w).
Proof.
  unfold buf_to_file. destruct (tmpname _) as [path|]; [|reflexivity].
  intros [c ->]. reflexivity.
Qed.

Lemma silenced_once_fields w :
  stdout (silenced_once w) = stdout w /\
  files (silenced_once w) = files w /\
  fs_log (silenced_once w) = fs_log w /\
  initialized (silenced_once w) = true /\
  stdout_silenced (silenced_once w) = stdout_silenced w || negb (initialized w).
Proof.
  unfold silenced_once. destruct (initialized w) eqn:E; simpl; rewrite ?E;
    repeat split; try reflexivity; now rewrite ?orb_false_r, ?orb_true_r.
Qed.

Lemma finish_run path data w :
  files w !! path = Some data ->
  (status <- delete_file path ;;
   if decide (status <> 0%Z) then exit EXIT_FAILURE else ret EXIT_SUCCESS) w =
  if decide (unlink_status (length (fs_log w)) = 0%Z)
  then (Ret EXIT_SUCCESS,
        log_event (EvDelete path 0) (set_files (delete path (files w)) w))
  else (Exit EXIT_FAILURE,
        log_event (EvDelete path (unlink_status (length (fs_log w)))) w).
Proof.
  intros H. unfold bind, delete_file. rewrite H.
  destruct (decide (unlink_status _ = 0%Z)) as [E|E].
  - reflexivity.
  - destruct (decide (unlink_status (length (fs_log w)) <> 0%Z)); [reflexivity|contradiction].
Qed.

Lemma entry_run data w path o t :
  tmpname (length (fs_log w)) = Some path ->
  files w !! path = None ->
  library_outcome o ->
  (forall w', files w' !! path = Some data ->
              printInfo path w' = (o, printed t w')) ->
  exists r w',
    LLVMFuzzerTestOneInput data w = (r, w') /\
    initialized w' = true /\
    stdout_silenced w' = stdout_silenced w || negb (initialized w) /\
    match o with
    | Throw ForeignException =>
        r = Throw ForeignException /\
        stdout w' = stdout w +:+ t /\
        fs_log w' = fs_log w ++ [EvCreate (Some path)] /\
        files w' = <[path := data]> (files w)
    | _ =>
        let status := unlink_status (S (length (fs_log w))) in
        stdout w' =
          stdout w +:+ t +:+
          match o with
          | Throw (StdException what) => what +:+ nl
          | _ => ""
          end /\
        if decide (status = 0%Z)
        then r = Ret EXIT_SUCCESS /\
             fs_log w' = fs_log w ++ [EvCreate (Some path); EvDelete path 0] /\
             files w' = files w
        else r = Exit EXIT_FAILURE /\
             fs_log w' =
               fs_log w ++ [EvCreate (Some path); EvDelete path status] /\
             files w' = <[path := data]> (files w)
    end.
Proof.
  intros Ht Hf Ho Hp. unfold LLVMFuzzerTestOneInput. rewrite entry_setup.
  destruct (silenced_once_fields w) as (Hs1 & Hs2 & Hs3 & Hs4 & Hs5).
  set (w0 := silenced_once w) in *.
  unfold bind at 1. rewrite (buf_to_file_created data w0 path)
    by (rewrite ?Hs2, ?Hs3; assumption).
  set (w1 := log_event _ _).
  assert (H1 : files w1 !! path = Some data).
  { unfold w1. simpl. apply lookup_insert_eq. }
  unfold bind at 1, try_catch_std. rewrite (Hp w1 H1).
  assert (Hfin : forall t',
    exists r w',
      (status <- delete_file path ;;
       if decide (status <> 0%Z) then exit EXIT_FAILURE else ret EXIT_SUCCESS)
        (printed t' w1) = (r, w') /\
      initialized w' = true /\
      stdout_silenced w' = stdout_silenced w || negb (initialized w) /\
      stdout w' = stdout w +:+ t' /\
      if decide (unlink_status (S (length (fs_log w))) = 0%Z)
      then r = Ret EXIT_SUCCESS /\
           fs_log w' = fs_log w ++ [EvCreate (Some path); EvDelete path 0] /\
           files w' = files w
      else r = Exit EXIT_FAILURE /\
           fs_log w' =
             fs_log w ++ [EvCreate (Some path);
                          EvDelete path (unlink_status (S (length (fs_log w))))] /\
           files w' = <[path := data]> (files w)).
  { intros t'. rewrite (finish_run path data) by exact H1.
    assert (Hlen : length (fs_log (printed t' w1)) = S (length (fs_log w))).
    { simpl. rewrite length_app, Hs3. simpl. lia. }
    rewrite Hlen.
    destruct (decide (unlink_status (S (length (fs_log w))) = 0%Z)).
    - eexists _, _. split; [reflexivity|]. simpl.
      rewrite Hs1, Hs2, Hs3, Hs4, Hs5, <- app_assoc.
      repeat split; try reflexivity. now apply delete_insert_id.
    - eexists _, _. split; [reflexivity|]. simpl.
      rewrite Hs1, Hs2, Hs3, Hs4, Hs5, <- app_assoc.
      repeat split; reflexivity. }
  destruct o as [[]|[what|]| |]; try contradiction.
  - destruct (Hfin t) as (r & w' & Hr & Hi & Hq & Hout & Hrest).
    exists r, w'. rewrite Hr. repeat split; try assumption.
    now rewrite append_nil_r.
  - destruct (Hfin (t +:+ what +:+ nl)) as (r & w' & Hr & Hi & Hq & Hout & Hrest).
    exists r, w'. rewrite cout_then, cout_last, !printed_printed, Hr.
    repeat split; assumption.
  - eexists _, _. split; [reflexivity|]. simpl.
    rewrite Hs1, Hs2, Hs3, Hs4, Hs5. repeat split; reflexivity.
Qed.

Lemma printInfo_inspection file content w :
  files w !! file = Some content ->
  library_outcome (inspection file content).1 /\
  printInfo file w =
    ((inspection file content).1, printed (inspection file content).2 w).
Proof.
  intros H.
  destruct (printInfo_determined file (Some content)) as (o & t & Ho & Hp).
  unfold inspection. rewrite (Hp (holding file content)).
  - simpl. split; [exact Ho | now apply Hp].
  - unfold holding. simpl. apply lookup_singleton_eq.
Qed.

Lemma entry_run_inspection data w path :
  tmpname (length (fs_log w)) = Some path ->
  files w !! path = None ->
  exists r w',
    LLVMFuzzerTestOneInput data w = (r, w') /\
    initialized w' = true /\
    stdout_silenced w' = stdout_silenced w || negb (initialized w) /\
    match (inspection path data).1 with
    | Throw ForeignException =>
        r = Throw ForeignException /\
        stdout w' = stdout w +:+ (inspection path data).2 /\
        fs_log w' = fs_log w ++ [EvCreate (Some path)] /\
        files w' = <[path := data]> (files w)
    | _ =>
        let status := unlink_status (S (length (fs_log w))) in
        stdout w' = stdout w +:+ invocation_text path data /\
        if decide (status = 0%Z)
        then r = Ret EXIT_SUCCESS /\
             fs_log w' = fs_log w ++ [EvCreate (Some path); EvDelete path 0] /\
             files w' = files w
        else r = Exit EXIT_FAILURE /\
             fs_log w' =
               fs_log w ++ [EvCreate (Some path); EvDelete path status] /\
             files w' = <[path := data]> (files w)
    end.
Proof.
  intros Ht Hf.
  assert (Hi : forall w', files w' !! path = Some data ->
     printInfo path w' =
       ((inspection path data).1, printed (inspection path data).2 w')).
  { intros w' H. now apply printInfo_inspection. }
  assert (Ho : library_outcome (inspection path data).1).
  { apply (printInfo_inspection path data (holding path data)).
    unfold holding. simpl. apply lookup_singleton_eq. }
  destruct (entry_run data w path _ _ Ht Hf Ho Hi) as (r & w' & Hr & H1 & H2 & H3).
  exists r, w'. repeat (split; [assumption|]). unfold invocation_text.
  destruct (inspection path data).1 as [[]|[what|]| |]; exact H3.
Qed.

(** C1 (amended): when the temporary file has been created and the
    invocation does not end with an exception that is not a std::exception,
    [delete_file] is called on that file exactly once, after which either
    the file is gone and the invocation returns, or the removal has failed
    and the process exits. *)
Theorem temporary_file_deleted_once data w path r w' :
  tmpname (length (fs_log w)) = Some path ->
  files w !! path = None ->
  LLVMFuzzerTestOneInput data w = (r, w') ->
  r <> Throw ForeignException ->
  exists status,
    fs_log w' = fs_log w ++ [EvCreate (Some path); EvDelete path status] /\
    ((status = 0%Z /\ r = Ret EXIT_SUCCESS /\ files w' !! path = None /\
      files w' = files w) \/
     (status <> 0%Z /\ r = Exit EXIT_FAILURE /\
      files w' !! path = Some data)).
Proof.
  intros Ht Hf Hrun Hr.
  destruct (entry_run_inspection data w path Ht Hf)
    as (r0 & w0 & Hrun0 & _ & _ & H).
  rewrite Hrun in Hrun0. injection Hrun0 as <- <-.
  assert (H' : let status := unlink_status (S (length (fs_log w))) in
     if decide (status = 0%Z)
     then r = Ret EXIT_SUCCESS /\
          fs_log w' = fs_log w ++ [EvCreate (Some path); EvDelete path 0] /\
          files w' = files w
     else r = Exit EXIT_FAILURE /\
          fs_log w' = fs_log w ++ [EvCreate (Some path); EvDelete path status] /\
          files w' = <[path := data]> (files w)).
  { destruct (inspection path data).1 as [[]|[what|]| |]; try apply H.
    destruct H as [H _]. contradiction. }
  cbv zeta in H'. clear H.
  destruct (decide (unlink_status (S (length (fs_log w))) = 0%Z)) as [E|E].
  - destruct H' as (-> & Hlog & Hfiles). exists 0%Z. split; [exact Hlog|].
    left. rewrite Hfiles. auto.
  - destruct H' as (-> & Hlog & Hfiles). exists (unlink_status (S (length (fs_log w)))).
    split; [exact Hlog|]. right. rewrite Hfiles, lookup_insert_eq. auto.
Qed.

(** C2 (amended): a [NULL] from [buf_to_file] ends the process with the
    failure status before anything is written; an exception derived from
    std::exception that leaves [printInfo] is caught, its message and an end
    of line are written, and the invocation returns the success status when
    the temporary file is then removed; a failed removal ends the process
    with the failure status. *)
Theorem std_exceptions_caught data w :
  (match tmpname (length (fs_log w)) with
   | Some path => is_Some (files w !! path)
   | None => True
   end ->
   exists w',
     LLVMFuzzerTestOneInput data w = (Exit EXIT_FAILURE, w') /\
     stdout w' = stdout w /\ files w' = files w) /\
  (forall path what text,
      tmpname (length (fs_log w)) = Some path ->
      files w !! path = None ->
      inspection path data = (Throw (StdException what), text) ->
      exists r w',
        LLVMFuzzerTestOneInput data w = (r, w') /\
        stdout w' = stdout w +:+ text +:+ what +:+ nl /\
        (unlink_status (S (length (fs_log w))) = 0%Z -> r = Ret EXIT_SUCCESS) /\
        (unlink_status (S (length (fs_log w))) <> 0%Z -> r = Exit EXIT_FAILURE)) /\
  (forall path,
      tmpname (length (fs_log w)) = Some path ->
      files w !! path = None ->
      (inspection path data).1 <> Throw ForeignException ->
      unlink_status (S (length (fs_log w))) <> 0%Z ->
      exists w',
        LLVMFuzzerTestOneInput data w = (Exit EXIT_FAILURE, w') /\
        files w' !! path = Some data).
Proof.
  split; [|split].
  - intros H. unfold LLVMFuzzerTestOneInput. rewrite entry_setup.
    destruct (silenced_once_fields w) as (Hs1 & Hs2 & Hs3 & _).
    unfold bind. rewrite buf_to_file_failed by (now rewrite Hs2, Hs3).
    eexists. split; [reflexivity|]. simpl. auto.
  - intros path what text Ht Hf Hi.
    destruct (entry_run_inspection data w path Ht Hf)
      as (r & w' & Hrun & _ & _ & H).
    unfold invocation_text in H. rewrite Hi in H. simpl in H.
    destruct H as [Hout H]. exists r, w'. split; [exact Hrun|].
    split; [exact Hout|].
    destruct (decide (unlink_status (S (length (fs_log w))) = 0%Z)) as [E|E];
      destruct H as (-> & _); split; intros ?; congruence.
  - intros path Ht Hf Hi Hu.
    destruct (entry_run_inspection data w path Ht Hf)
      as (r & w' & Hrun & _ & _ & H).
    assert (H' : r = Exit EXIT_FAILURE /\ files w' = <[path := data]> (files w)).
    { destruct (inspection path data).1 as [[]|[what|]| |];
        try (destruct H as [_ H];
             destruct (decide (unlink_status (S (length (fs_log w))) = 0%Z));
             [contradiction | tauto]). }
    destruct H' as [-> Hfiles]. exists w'. split; [exact Hrun|].
    rewrite Hfiles. apply lookup_insert_eq.
Qed.

(** C10: an exception that is not derived from std::exception passes the
    handler and leaves [LLVMFuzzerTestOneInput]; [delete_file] is not
    called, and the temporary file stays where it is. *)
Theorem foreign_exception_propagates data w path :
  tmpname (length (fs_log w)) = Some path ->
  files w !! path = None ->
  (inspection path data).1 = Throw ForeignException ->
  exists w',
    LLVMFuzzerTestOneInput data w = (Throw ForeignException, w') /\
    fs_log w' = fs_log w ++ [EvCreate (Some path)] /\
    files w' !! path = Some data.
Proof.
  intros Ht Hf Hi.
  destruct (entry_run_inspection data w path Ht Hf)
    as (r & w' & Hrun & _ & _ & H).
  rewrite Hi in H. destruct H as (-> & _ & Hlog & Hfiles).
  exists w'. split; [exact Hrun|]. split; [exact Hlog|].
  rewrite Hfiles. apply lookup_insert_eq.
Qed.

Lemma entry_text data w path r w' :
  tmpname (length (fs_log w)) = Some path ->
  files w !! path = None ->
  LLVMFuzzerTestOneInput data w = (r, w') ->
  stdout w' = stdout w +:+ invocation_text path data /\ initialized w' = true.
Proof.
  intros Ht Hf Hr.
  destruct (entry_run_inspection data w path Ht Hf)
    as (r0 & w0 & Hrun & Hinit & _ & H).
  rewrite Hr in Hrun. injection Hrun as <- <-. split; [|exact Hinit].
  unfold invocation_text in *.
  destruct (inspection path data).1 as [[]|[what|]| |]; try apply H.
  rewrite append_nil_r. apply H.
Qed.

(** C8 (amended): two invocations on the same input that are given the
    same path for their temporary file write the same text, whatever the
    worlds they start in (first invocation of the process or not, output
    silenced or not); the text depends on the path and the bytes only. *)
Theorem same_path_same_text data path w1 w2 r1 w1' r2 w2' :
  tmpname (length (fs_log w1)) = Some path ->
  tmpname (length (fs_log w2)) = Some path ->
  files w1 !! path = None ->
  files w2 !! path = None ->
  LLVMFuzzerTestOneInput data w1 = (r1, w1') ->
  LLVMFuzzerTestOneInput data w2 = (r2, w2') ->
  stdout w1' = stdout w1 +:+ invocation_text path data /\
  stdout w2' = stdout w2 +:+ invocation_text path data /\
  initialized w1' = true /\ initialized w2' = true.
Proof.
  intros Ht1 Ht2 Hf1 Hf2 Hr1 Hr2.
  destruct (entry_text data w1 path r1 w1' Ht1 Hf1 Hr1) as [H1 I1].
  destruct (entry_text data w2 path r2 w2' Ht2 Hf2 Hr2) as [H2 I2].
  auto.
Qed.

End EntryPoint.

(** ** The properties at work on the sample library *)

(** The pre-order property on the sample scene of five nodes. *)
Lemma printNodes_preorder_witness :
  printNodes (library := Sample.library) Sample.scene fresh_world =
    (Ret tt, (printNodes (library := Sample.library) Sample.scene fresh_world).2) /\
  (printNodes (library := Sample.library) Sample.scene fresh_world).2 =
    printed
      (join (map (fun n => text_of (node_block (library := Sample.library) n))
                 (preorder Sample.scene)))
      fresh_world /\
  length (preorder Sample.scene) = 5.
Proof.
  split; [vm_compute; reflexivity|]. split; [|reflexivity].
  apply (proj2 (printNodes_preorder (library := Sample.library))
           Sample.scene fresh_world).
  vm_compute; reflexivity.
Defined.

(** The invalid archive of the sample library. *)
Lemma printInfo_invalid_witness :
  printInfo (library := Sample.library) "/tmp/fuzz-file"
            (holding "/tmp/fuzz-file" [Byte.x02]) =
  (Ret tt,
   printed (nl +:+ "file " +:+ "/tmp/fuzz-file" +:+ " (invalid)" +:+ ":" +:+ nl +:+ nl)
           (holding "/tmp/fuzz-file" [Byte.x02])).
Proof.
  apply (printInfo_invalid (library := Sample.library) "/tmp/fuzz-file"
           (holding "/tmp/fuzz-file" [Byte.x02]) Sample.invalid_archive).
  - vm_compute; reflexivity.
  - reflexivity.
Defined.

(** The smallest archive that holds a transform. *)
Lemma printInfo_root_and_transform_witness :
  stdout (printInfo (library := MinimalArchive.library) "/tmp/fuzz-file"
            (holding "/tmp/fuzz-file" [Byte.x01])).2 =
    nl +:+ "file /tmp/fuzz-file:" +:+ nl +:+ nl +:+
    "file name: archive" +:+ nl +:+
    "Node name: ABC" +:+ nl +:+
    "Node full name: /" +:+ nl +:+
    "MetaData: " +:+ nl +:+
    "Object type ignored." +:+ nl +:+
    "Node name: xf" +:+ nl +:+
    "Node full name: /xf" +:+ nl +:+
    "MetaData: schema=AbcGeom_Xform_v3" +:+ nl +:+
    "  Sample Count: 1" +:+ nl +:+
    "  Number of Ops: 3" +:+ nl /\
  preorder MinimalArchive.root = [MinimalArchive.root; Sample.lone_xform].
Proof.
  destruct (printInfo_root_and_transform (library := MinimalArchive.library)
              "/tmp/fuzz-file" (holding "/tmp/fuzz-file" [Byte.x01])
              (Sample.archive_of MinimalArchive.root) "archive"
              MinimalArchive.root Sample.lone_xform Sample.xform_schema 1 3)
    as [H1 H2]; try (vm_compute; reflexivity).
  split; [|exact H2]. rewrite H1. vm_compute; reflexivity.
Defined.

(** A traversal cut short by a std::exception: the file is removed once. *)
Lemma temporary_file_deleted_once_witness :
  (Sample.run Sample.same_name [Byte.x05] fresh_world).1 = Ret EXIT_SUCCESS /\
  exists status,
    fs_log (Sample.run Sample.same_name [Byte.x05] fresh_world).2 =
      fs_log fresh_world ++
      [EvCreate (Some "/tmp/fuzz-file"); EvDelete "/tmp/fuzz-file" status] /\
    ((status = 0%Z /\
      (Sample.run Sample.same_name [Byte.x05] fresh_world).1 = Ret EXIT_SUCCESS /\
      files (Sample.run Sample.same_name [Byte.x05] fresh_world).2
        !! "/tmp/fuzz-file" = None /\
      files (Sample.run Sample.same_name [Byte.x05] fresh_world).2 =
        files fresh_world) \/
     (status <> 0%Z /\
      (Sample.run Sample.same_name [Byte.x05] fresh_world).1 = Exit EXIT_FAILURE /\
      files (Sample.run Sample.same_name [Byte.x05] fresh_world).2
        !! "/tmp/fuzz-file" = Some [Byte.x05])).
Proof.
  split; [vm_compute; reflexivity|].
  apply (temporary_file_deleted_once (library := Sample.library)
           (environment := Sample.same_name) [Byte.x05] fresh_world
           "/tmp/fuzz-file").
  - reflexivity.
  - reflexivity.
  - vm_compute; reflexivity.
  - vm_compute; discriminate.
Defined.

(** The same run: the message of the exception ends the text. *)
Lemma std_exceptions_caught_witness :
  inspection (library := Sample.library) "/tmp/fuzz-file" [Byte.x05] =
    (Throw (StdException "Ogawa: read error"),
     (inspection (library := Sample.library) "/tmp/fuzz-file" [Byte.x05]).2) /\
  exists r w',
    Sample.run Sample.same_name [Byte.x05] fresh_world = (r, w') /\
    stdout w' =
      stdout fresh_world +:+
      (inspection (library := Sample.library) "/tmp/fuzz-file" [Byte.x05]).2 +:+
      "Ogawa: read error" +:+ nl /\
    (unlink_status (Environment := Sample.same_name)
       (S (length (fs_log fresh_world))) = 0%Z -> r = Ret EXIT_SUCCESS) /\
    (unlink_status (Environment := Sample.same_name)
       (S (length (fs_log fresh_world))) <> 0%Z -> r = Exit EXIT_FAILURE).
Proof.
  split; [vm_compute; reflexivity|].
  apply (proj1 (proj2 (std_exceptions_caught (library := Sample.library)
                         (environment := Sample.same_name)
                         [Byte.x05] fresh_world))
           "/tmp/fuzz-file" "Ogawa: read error"
           (inspection (library := Sample.library) "/tmp/fuzz-file" [Byte.x05]).2).
  - reflexivity.
  - reflexivity.
  - vm_compute; reflexivity.
Defined.

(** A traversal cut short by an exception of another type. *)
Lemma foreign_exception_propagates_witness :
  (inspection (library := Sample.library) "/tmp/fuzz-file" [Byte.x06]).1 =
    Throw ForeignException /\
  exists w',
    Sample.run Sample.same_name [Byte.x06] fresh_world =
      (Throw ForeignException, w') /\
    fs_log w' = fs_log fresh_world ++ [EvCreate (Some "/tmp/fuzz-file")] /\
    files w' !! "/tmp/fuzz-file" = Some [Byte.x06].
Proof.
  split; [vm_compute; reflexivity|].
  apply (foreign_exception_propagates (library := Sample.library)
           (environment := Sample.same_name) [Byte.x06] fresh_world
           "/tmp/fuzz-file").
  - reflexivity.
  - reflexivity.
  - vm_compute; reflexivity.
Defined.

(** Two invocations in a row whose temporary files get the same name. *)
Lemma same_path_same_text_witness :
  stdout (Sample.run Sample.same_name [Byte.x01] fresh_world).2 =
    stdout fresh_world +:+
    invocation_text (library := Sample.library) "/tmp/fuzz-file" [Byte.x01] /\
  stdout (Sample.run Sample.same_name [Byte.x01]
            (Sample.run Sample.same_name [Byte.x01] fresh_world).2).2 =
    stdout (Sample.run Sample.same_name [Byte.x01] fresh_world).2 +:+
    invocation_text (library := Sample.library) "/tmp/fuzz-file" [Byte.x01] /\
  initialized (Sample.run Sample.same_name [Byte.x01] fresh_world).2 = true /\
  initialized (Sample.run Sample.same_name [Byte.x01]
                 (Sample.run Sample.same_name [Byte.x01] fresh_world).2).2 = true.
Proof.
  apply (same_path_same_text (library := Sample.library)
           (environment := Sample.same_name) [Byte.x01] "/tmp/fuzz-file"
           fresh_world (Sample.run Sample.same_name [Byte.x01] fresh_world).2
           (Sample.run Sample.same_name [Byte.x01] fresh_world).1 _
           (Sample.run Sample.same_name [Byte.x01]
              (Sample.run Sample.same_name [Byte.x01] fresh_world).2).1 _).
  - reflexivity.
  - reflexivity.
  - reflexivity.
  - vm_compute; reflexivity.
  - vm_compute; reflexivity.
  - vm_compute; reflexivity.
Defined.

(** ** Where the stated claims fail *)

(** C1 as stated fails: the library throws an object that is no
    std::exception while opening the archive; the invocation is left with
    the temporary file in place and without a call of [delete_file]. *)
Lemma foreign_exception_leaves_temporary_file :
  (Sample.run Sample.same_name [Byte.x03] fresh_world).1 = Throw ForeignException /\
  fs_log (Sample.run Sample.same_name [Byte.x03] fresh_world).2 =
    [EvCreate (Some "/tmp/fuzz-file")] /\
  files (Sample.run Sample.same_name [Byte.x03] fresh_world).2
    !! "/tmp/fuzz-file" = Some [Byte.x03].
Proof. vm_compute. repeat split. Qed.

(** C2 as stated fails: an exception of another type raised during the
    traversal is not caught, no message is written after the text of the
    traversal, and the invocation does not return the success status. *)
Lemma foreign_exception_not_caught :
  (Sample.run Sample.same_name [Byte.x06] fresh_world).1 = Throw ForeignException /\
  (Sample.run Sample.same_name [Byte.x06] fresh_world).1 <> Ret EXIT_SUCCESS /\
  stdout (Sample.run Sample.same_name [Byte.x06] fresh_world).2 =
    (inspection (library := Sample.library) "/tmp/fuzz-file" [Byte.x06]).2.
Proof. vm_compute. repeat split. discriminate. Qed.


(** C8 as stated fails: two invocations in a row on the same valid input,
    whose temporary files get different names, write different texts. *)
Lemma new_path_new_text :
  Sample.first_run.1 = Ret EXIT_SUCCESS /\
  Sample.second_run.1 = Ret EXIT_SUCCESS /\
  stdout Sample.first_run.2 =
    invocation_text (library := Sample.library) "/tmp/fuzz-0" [Byte.x04] /\
  stdout Sample.second_run.2 =
    invocation_text (library := Sample.library) "/tmp/fuzz-0" [Byte.x04] +:+
    invocation_text (library := Sample.library) "/tmp/fuzz-2" [Byte.x04] /\
  invocation_text (library := Sample.library) "/tmp/fuzz-0" [Byte.x04] <>
  invocation_text (library := Sample.library) "/tmp/fuzz-2" [Byte.x04].
Proof. vm_compute. repeat split. discriminate. Qed.

(** C9 as stated fails: the smallest archive that holds a transform has the
    root container above it, and the inspection prints two node blocks, the
    ignored root first. *)
Lemma minimal_archive_two_blocks :
  printNodes (library := MinimalArchive.library) MinimalArchive.root
             fresh_world =
  (Ret tt,
   printed (text_of (node_block (library := MinimalArchive.library)
                                MinimalArchive.root) +:+
            text_of (node_block (library := MinimalArchive.library)
                                Sample.lone_xform))
           fresh_world) /\
  text_of (node_block (library := MinimalArchive.library) MinimalArchive.root) =
    "Node name: ABC" +:+ nl +:+ "Node full name: /" +:+ nl +:+
    "MetaData: " +:+ nl +:+ "Object type ignored." +:+ nl /\
  text_of (node_block (library := MinimalArchive.library) Sample.lone_xform) =
    "Node name: xf" +:+ nl +:+ "Node full name: /xf" +:+ nl +:+
    "MetaData: schema=AbcGeom_Xform_v3" +:+ nl +:+
    "  Sample Count: 1" +:+ nl +:+ "  Number of Ops: 3" +:+ nl /\
  length (preorder MinimalArchive.root) = 2.
Proof. vm_compute. repeat split. Qed.

(** * Further properties of the code *)

(** ** The printers and the traversal *)

Ltac run_all :=
  repeat first [ rewrite bind_then | rewrite cout_then | rewrite returns_then
               | rewrite throws_then | rewrite cout_last
               | rewrite printed_printed ].

Section MoreTraversal.
Context {library : AbcLibrary}.

(** X1: [printInfo] only writes.  Whatever the file and the library's
    answers, it ends by returning or with the library's exception (never by
    [exit], never by indexing outside a vector), it adds text at the end of
    the standard output, and it leaves the files, the helper log and the two
    flags as they were. *)
Theorem printInfo_only_writes file w :
  library_outcome (printInfo file w).1 /\
  (exists text, stdout (printInfo file w).2 = stdout w +:+ text) /\
  files (printInfo file w).2 = files w /\
  fs_log (printInfo file w).2 = fs_log w /\
  initialized (printInfo file w).2 = initialized w /\
  stdout_silenced (printInfo file w).2 = stdout_silenced w.
Proof.
  destruct (printInfo_determined file (files w !! file)) as (o & t & Ho & Hp).
  rewrite (Hp w eq_refl). simpl. split; [exact Ho|].
  split; [exists t; reflexivity|]. repeat split.
Qed.

Lemma kind_report_view_error k node e w :
  typed_view_error k node = Some e ->
  kind_report (Some k) node w = (Throw e, w).
Proof.
  destruct k; simpl;
    unfold printPolyMesh, printSubD, printFaceSet, printCurves, printXform,
      printMaterial.
  - destruct (IObject.asPolyMesh node); [discriminate|]. now intros [= ->].
  - destruct (IObject.asSubD node); [discriminate|]. now intros [= ->].
  - destruct (IObject.asFaceSet node); [discriminate|]. now intros [= ->].
  - destruct (IObject.asCurves node); [discriminate|]. now intros [= ->].
  - destruct (IObject.asXform node); [discriminate|]. now intros [= ->].
  - destruct (IObject.asMaterial node); [discriminate|]. now intros [= ->].
Qed.

(** X7: when the header of a node matches a kind but the typed view of
    that kind cannot be built, [printNodes] ends with that exception after
    the three lines of general information: no kind report is written and
    no child is visited. *)
Theorem unbuildable_view_stops_traversal node k e w :
  classify (IObject.getHeader node) = Some k ->
  typed_view_error k node = Some e ->
  printNodes node w =
  (Throw e,
   printed ("Node name: " +:+ ObjectHeader.getName (IObject.getHeader node) +:+ nl +:+
            "Node full name: " +:+ ObjectHeader.getFullName (IObject.getHeader node) +:+ nl +:+
            "MetaData: " +:+ ObjectHeader.getMetaData_serialize (IObject.getHeader node) +:+ nl)
           w).
Proof.
  intros Hk He. rewrite printNodes_structure, Hk.
  unfold general_information. run_all.
  unfold bind. rewrite (kind_report_view_error k node e _ He). reflexivity.
Qed.

Lemma for_range_throws from count (body : nat -> M unit) i e :
  (forall j, printer (body j)) ->
  i < count ->
  (forall j, from <= j < from + i -> result_of (body j) = Ret tt) ->
  result_of (body (from + i)) = Throw e ->
  result_of (for_range from count body) = Throw e /\
  text_of (for_range from count body) =
    join (map (fun j => text_of (body j)) (seq from (S i))).
Proof.
  intros Hp. revert from i.
  induction count as [|count IH]; intros from i Hi Hbefore Hat; [lia|].
  simpl for_range.
  rewrite result_of_bind, text_of_bind by (auto using printer_for_range).
  destruct i as [|i].
  - rewrite Nat.add_0_r in Hat. rewrite Hat. simpl.
    rewrite !append_nil_r. split; reflexivity.
  - rewrite (Hbefore from) by lia.
    destruct (IH (S from) i) as [Hr Ht].
    + lia.
    + intros j Hj. apply Hbefore. lia.
    + replace (S from + i) with (from + S i) by lia. exact Hat.
    + rewrite Hr, Ht. split; reflexivity.
Qed.

(** X8: when [getChild] fails at index [i], the traversal of the node ends
    with that exception; the block of the node and everything under the
    children before [i] have been written, and nothing after. *)
Theorem failing_child_stops_traversal node n i e w :
  result_of (node_block node) = Ret tt ->
  IObject.getNumChildren node = Returns n ->
  i < n ->
  (forall j, j < i ->
     exists child, IObject.getChild node j = Returns child /\
                   result_of (printNodes child) = Ret tt) ->
  IObject.getChild node i = Throws e ->
  printNodes node w =
  (Throw e, printed (text_of (node_block node) +:+ children_text node i) w).
Proof.
  intros Hb Hn Hi Hbefore Hat.
  assert (Hs : printNodes node ==
               (node_block node ;; visit_children printNodes node)).
  { eapply same_trans; [apply printNodes_structure|].
    apply same_sym, bind_assoc. }
  assert (Hv : forall j, printer (child <- lib (IObject.getChild node j) ;;
                                  printNodes child)).
  { intros j. apply printer_bind; [apply printer_lib|].
    intros child. apply printer_printNodes. }
  rewrite Hs. rewrite bind_printer_run by apply printer_node_block.
  rewrite Hb. unfold visit_children. rewrite Hn, returns_then.
  destruct (for_range_throws 0 n _ i e Hv Hi) as [Hr Ht].
  - intros j Hj. destruct (Hbefore j) as (child & Hc & Hrc); [lia|].
    rewrite Hc. exact Hrc.
  - simpl. rewrite Hat. reflexivity.
  - rewrite (proj2 (printer_for_range 0 n _ Hv)), Hr, Ht, printed_printed.
    f_equal. f_equal. f_equal. unfold children_text.
    rewrite seq_S, map_app, join_app. simpl. rewrite Hat.
    change (text_of (child <- lib (Throws e) ;; printNodes child))
      with EmptyString.
    simpl. rewrite append_nil_r. f_equal. apply List.map_ext_in.
    intros j Hj. apply List.in_seq in Hj.
    destruct (Hbefore j) as (child & Hc & _); [lia|]. rewrite Hc. reflexivity.
Qed.

Lemma for_range_same_below from count (body body' : nat -> M unit) :
  (forall i, from <= i < from + count -> body i == body' i) ->
  for_range from count body == for_range from count body'.
Proof.
  revert from. induction count as [|count IH]; intros from H.
  - intros w. reflexivity.
  - simpl. apply bind_same; [apply H; lia | intros _; apply IH].
    intros i Hi. apply H. lia.
Qed.

(** X12: [printNodes] never asks for a child at an index at or above
    [getNumChildren()] (for none at all when that call throws): changing the
    answers at those indices changes nothing. *)
Theorem children_beyond_count_unread node child :
  match IObject.getNumChildren node with
  | Returns n => forall i, i < n -> child i = IObject.getChild node i
  | Throws _ => True
  end ->
  printNodes (with_children node child) == printNodes node.
Proof.
  intros H.
  eapply same_trans; [apply printNodes_structure|].
  eapply same_trans; [|apply same_sym, printNodes_structure].
  apply bind_same; [apply same_refl|intros _].
  apply bind_same.
  { simpl IObject.getHeader.
    destruct (classify (IObject.getHeader node)) as [[]|]; apply same_refl. }
  intros _. unfold visit_children. simpl IObject.getNumChildren.
  destruct (IObject.getNumChildren node) as [n|e]; [|apply same_refl].
  intros w. rewrite !returns_then. revert w.
  apply for_range_same_below. intros i Hi. simpl IObject.getChild.
  rewrite H by lia. apply same_refl.
Qed.

(** X13: the property type read in the three attribute printers has no
    effect: schemas that differ only in the property types of their headers
    are reported the same way. *)
Theorem property_types_unused types :
  (forall schema,
      printMeshAttributes (retyped_mesh types schema) ==
      printMeshAttributes schema) /\
  (forall schema,
      printCurvesAttributes (retyped_curves types schema) ==
      printCurvesAttributes schema) /\
  (forall schema,
      printSubDAttributes (retyped_subd types schema) ==
      printSubDAttributes schema).
Proof.
  split; [|split]; intros schema.
  - unfold printMeshAttributes. simpl.
    apply bind_same; [apply same_refl|intros n].
    do 3 (apply bind_same; [apply same_refl|intros _]).
    apply for_range_same. intros p w.
    destruct (IPolyMeshSchema.getPropertyHeader schema p); reflexivity.
  - unfold printCurvesAttributes. simpl.
    apply bind_same; [apply same_refl|intros n].
    do 3 (apply bind_same; [apply same_refl|intros _]).
    apply for_range_same. intros p w.
    destruct (ICurvesSchema.getPropertyHeader schema p); reflexivity.
  - unfold printSubDAttributes. simpl.
    apply bind_same; [apply same_refl|intros n].
    do 3 (apply bind_same; [apply same_refl|intros _]).
    apply for_range_same. intros p w.
    destruct (ISubDSchema.getPropertyHeader schema p); reflexivity.
Qed.

(** X9: the report of a subdivision surface is its attribute listing
    followed by the four scheme lines in the order subdivision scheme, face
    varying interpolate boundary, face varying propagate corners,
    interpolate boundary; when the attribute listing ends with an exception,
    none of the four lines is written. *)
Theorem printSubD_scheme_lines_last node schema scheme fvib fvpc ib w :
  IObject.asSubD node = Returns schema ->
  ISubDSchema.getSubdivisionSchemeProperty schema = Returns scheme ->
  ISubDSchema.getFaceVaryingInterpolateBoundaryProperty schema = Returns fvib ->
  ISubDSchema.getFaceVaryingPropagateCornersProperty schema = Returns fvpc ->
  ISubDSchema.getInterpolateBoundaryProperty schema = Returns ib ->
  printSubD node w =
  match result_of (printSubDAttributes schema) with
  | Ret _ =>
      (Ret tt,
       printed (text_of (printSubDAttributes schema) +:+
                scheme_lines scheme fvib fvpc ib) w)
  | failure => (failure, printed (text_of (printSubDAttributes schema)) w)
  end.
Proof.
  intros Hs H1 H2 H3 H4. unfold printSubD. rewrite Hs, returns_then.
  rewrite bind_printer_run by apply printer_printSubDAttributes.
  destruct (result_of (printSubDAttributes schema)) as [[]|e|s|]; try reflexivity.
  rewrite H1, H2, H3, H4. run_all. reflexivity.
Qed.
End MoreTraversal.

(** ** The entry point in every case *)

Section MoreEntryPoint.
Context {library : AbcLibrary} {environment : Environment}.

Lemma entry_creation_failed data w :
  match tmpname (length (fs_log w)) with
  | Some path => is_Some (files w !! path)
  | None => True
  end ->
  LLVMFuzzerTestOneInput data w =
  (Exit EXIT_FAILURE, log_event (EvCreate None) (silenced_once w)).
Proof.
  intros H. unfold LLVMFuzzerTestOneInput. rewrite entry_setup.
  destruct (silenced_once_fields w) as (Hs1 & Hs2 & Hs3 & _).
  unfold bind. rewrite buf_to_file_failed by (now rewrite Hs2, Hs3).
  reflexivity.
Qed.

Lemma entry_cases data w :
  LLVMFuzzerTestOneInput data w =
    (Exit EXIT_FAILURE, log_event (EvCreate None) (silenced_once w)) \/
  exists path,
    tmpname (length (fs_log w)) = Some path /\ files w !! path = None.
Proof.
  destruct (tmpname (length (fs_log w))) as [path|] eqn:Ht.
  - destruct (files w !! path) as [c|] eqn:Hf.
    + left. apply entry_creation_failed. rewrite Ht, Hf. eexists; reflexivity.
    + right. exists path. auto.
  - left. apply entry_creation_failed. now rewrite Ht.
Qed.

Lemma entry_created_summary data w path :
  tmpname (length (fs_log w)) = Some path ->
  files w !! path = None ->
  exists r w',
    LLVMFuzzerTestOneInput data w = (r, w') /\
    ((r = Throw ForeignException /\
      fs_log w' = fs_log w ++ [EvCreate (Some path)] /\
      files w' = <[path := data]> (files w)) \/
     (r = Ret EXIT_SUCCESS /\
      fs_log w' = fs_log w ++ [EvCreate (Some path); EvDelete path 0] /\
      files w' = files w) \/
     (exists status,
        status <> 0%Z /\ r = Exit EXIT_FAILURE /\
        fs_log w' = fs_log w ++ [EvCreate (Some path); EvDelete path status] /\
        files w' = <[path := data]> (files w))).
Proof.
  intros Ht Hf.
  destruct (entry_run_inspection data w path Ht Hf)
    as (r & w' & Hrun & _ & _ & H).
  exists r, w'. split; [exact Hrun|].
  assert (Hdel :
    (let status := unlink_status (S (length (fs_log w))) in
     stdout w' = stdout w +:+ invocation_text path data /\
     if decide (status = 0%Z)
     then r = Ret EXIT_SUCCESS /\
          fs_log w' = fs_log w ++ [EvCreate (Some path); EvDelete path 0] /\
          files w' = files w
     else r = Exit EXIT_FAILURE /\
          fs_log w' = fs_log w ++ [EvCreate (Some path); EvDelete path status] /\
          files w' = <[path := data]> (files w)) ->
    (r = Ret EXIT_SUCCESS /\
      fs_log w' = fs_log w ++ [EvCreate (Some path); EvDelete path 0] /\
      files w' = files w) \/
     (exists status,
        status <> 0%Z /\ r = Exit EXIT_FAILURE /\
        fs_log w' = fs_log w ++ [EvCreate (Some path); EvDelete path status] /\
        files w' = <[path := data]> (files w))).
  { cbv zeta. intros [_ Hd].
    destruct (decide (unlink_status (S (length (fs_log w))) = 0%Z)) as [E|E].
    - left. exact Hd.
    - right. exists (unlink_status (S (length (fs_log w)))). tauto. }
  destruct (inspection path data).1 as [[]|[what|]| |];
    try (right; apply Hdel; exact H).
  left. tauto.
Qed.

(** X2: an invocation ends in one of three ways only: it returns
    [EXIT_SUCCESS], the process exits with [EXIT_FAILURE], or an exception
    that is no std::exception leaves it.  No std::exception ever leaves the
    entry point and no other value is returned. *)
Theorem entry_point_outcomes data w :
  (LLVMFuzzerTestOneInput data w).1 = Ret EXIT_SUCCESS \/
  (LLVMFuzzerTestOneInput data w).1 = Exit EXIT_FAILURE \/
  (LLVMFuzzerTestOneInput data w).1 = Throw ForeignException.
Proof.
  destruct (entry_cases data w) as [->|(path & Ht & Hf)]; [auto|].
  destruct (entry_created_summary data w path Ht Hf)
    as (r & w' & -> & [(-> & _)|[(-> & _)|(status & _ & -> & _)]]);
    simpl; auto.
Qed.

(** X3: however an invocation ends, [initialized] is set afterwards, and
    [ignore_stdout] has been called exactly when it was not set before: an
    invocation of an initialized process leaves the silencing as it is. *)
Theorem entry_point_silences_once data w :
  initialized (LLVMFuzzerTestOneInput data w).2 = true /\
  stdout_silenced (LLVMFuzzerTestOneInput data w).2 =
    (if initialized w then stdout_silenced w else true).
Proof.
  destruct (silenced_once_fields w) as (_ & _ & _ & Hi & Hq).
  assert (Hq' : stdout_silenced w || negb (initialized w) =
                (if initialized w then stdout_silenced w else true)).
  { destruct (initialized w), (stdout_silenced w); reflexivity. }
  destruct (entry_cases data w) as [->|(path & Ht & Hf)].
  - simpl. rewrite Hi, Hq. auto.
  - destruct (entry_run_inspection data w path Ht Hf)
      as (r & w' & -> & Hi' & Hq'' & _). simpl. rewrite Hi', Hq''. auto.
Qed.

(** X4: however an invocation ends, a path of the temporary storage
    holds what it held before, unless it is the path just picked for the
    temporary file, which then was free and holds the input bytes. *)
Theorem entry_point_keeps_other_files data w p :
  files (LLVMFuzzerTestOneInput data w).2 !! p = files w !! p \/
  (tmpname (length (fs_log w)) = Some p /\
   files w !! p = None /\
   files (LLVMFuzzerTestOneInput data w).2 !! p = Some data).
Proof.
  destruct (silenced_once_fields w) as (_ & Hfiles & _).
  destruct (entry_cases data w) as [->|(path & Ht & Hf)].
  - left. simpl. now rewrite Hfiles.
  - assert (Hins : <[path := data]> (files w) !! p = files w !! p \/
                   (tmpname (length (fs_log w)) = Some p /\
                    files w !! p = None /\
                    <[path := data]> (files w) !! p = Some data)).
    { destruct (decide (path = p)) as [<-|Hne].
      - right. rewrite lookup_insert_eq. auto.
      - left. now rewrite lookup_insert_ne. }
    destruct (entry_created_summary data w path Ht Hf)
      as (r & w' & -> & [(_ & _ & Hw)|[(_ & _ & Hw)|(status & _ & _ & _ & Hw)]]);
      simpl; rewrite Hw; auto.
Qed.

(** X5: an invocation calls [buf_to_file] exactly once and [delete_file]
    at most once, after it and on the path it returned; [delete_file] is
    left out exactly when no file was made or an exception that is no
    std::exception ended the invocation. *)
Theorem entry_point_helper_calls data w :
  fs_log (LLVMFuzzerTestOneInput data w).2 = fs_log w ++ [EvCreate None] \/
  exists path,
    tmpname (length (fs_log w)) = Some path /\
    (fs_log (LLVMFuzzerTestOneInput data w).2 =
       fs_log w ++ [EvCreate (Some path)] /\
     (LLVMFuzzerTestOneInput data w).1 = Throw ForeignException \/
     exists status,
       fs_log (LLVMFuzzerTestOneInput data w).2 =
         fs_log w ++ [EvCreate (Some path); EvDelete path status] /\
       (LLVMFuzzerTestOneInput data w).1 <> Throw ForeignException).
Proof.
  destruct (silenced_once_fields w) as (_ & _ & Hlog & _).
  destruct (entry_cases data w) as [->|(path & Ht & Hf)].
  - left. simpl. now rewrite Hlog.
  - right. exists path. split; [exact Ht|].
    destruct (entry_created_summary data w path Ht Hf)
      as (r & w' & -> & [(-> & Hw & _)|[(-> & Hw & _)|(status & _ & -> & Hw & _)]]);
      simpl; rewrite Hw.
    + left. auto.
    + right. eexists. split; [reflexivity | discriminate].
    + right. eexists. split; [reflexivity | discriminate].
Qed.

Lemma inspection_rejected path data e :
  getArchive path (Some data) = Throws e ->
  inspection path data = (Throw e, EmptyString).
Proof.
  intros H. unfold inspection, printInfo, holding. simpl.
  rewrite lookup_singleton_eq, H. reflexivity.
Qed.

(** X6: when the factory throws a std::exception on the input, all that
    the invocation writes is the message of the exception and an end of
    line; the temporary file is removed and the success status returned. *)
Theorem rejected_input_prints_message data w path what :
  tmpname (length (fs_log w)) = Some path ->
  files w !! path = None ->
  getArchive path (Some data) = Throws (StdException what) ->
  unlink_status (S (length (fs_log w))) = 0%Z ->
  exists w',
    LLVMFuzzerTestOneInput data w = (Ret EXIT_SUCCESS, w') /\
    stdout w' = stdout w +:+ what +:+ nl /\
    files w' = files w.
Proof.
  intros Ht Hf Ha Hu.
  destruct (entry_run_inspection data w path Ht Hf)
    as (r & w' & Hrun & _ & _ & H).
  unfold invocation_text in H.
  rewrite (inspection_rejected path data _ Ha) in H. simpl in H.
  destruct H as [Hout H]. rewrite Hu in H. simpl in H.
  destruct H as (-> & _ & Hfiles). exists w'. auto.
Qed.

Lemma inspection_invalid path data archive :
  getArchive path (Some data) = Returns archive ->
  IArchive.valid archive = false ->
  inspection path data =
  (Ret tt, nl +:+ "file " +:+ path +:+ " (invalid)" +:+ ":" +:+ nl +:+ nl).
Proof.
  intros Ha Hv. unfold inspection, printInfo, holding. simpl.
  rewrite lookup_singleton_eq, Ha, returns_then. cbv zeta. rewrite Hv.
  rewrite !cout_then, !printed_printed. reflexivity.
Qed.

(** X10: when the factory hands back an invalid archive for the input,
    all that the invocation writes is the file line with the " (invalid)"
    marker; the temporary file is removed and the success status
    returned. *)
Theorem invalid_input_prints_marker data w path archive :
  tmpname (length (fs_log w)) = Some path ->
  files w !! path = None ->
  getArchive path (Some data) = Returns archive ->
  IArchive.valid archive = false ->
  unlink_status (S (length (fs_log w))) = 0%Z ->
  exists w',
    LLVMFuzzerTestOneInput data w = (Ret EXIT_SUCCESS, w') /\
    stdout w' =
      stdout w +:+ nl +:+ "file " +:+ path +:+ " (invalid)" +:+ ":" +:+ nl +:+ nl /\
    files w' = files w.
Proof.
  intros Ht Hf Ha Hv Hu.
  destruct (entry_run_inspection data w path Ht Hf)
    as (r & w' & Hrun & _ & _ & H).
  unfold invocation_text in H.
  rewrite (inspection_invalid path data _ Ha Hv) in H. simpl in H.
  destruct H as [Hout H]. rewrite Hu in H. simpl in H.
  destruct H as (-> & _ & Hfiles). exists w'.
  rewrite Hout, !append_assoc, append_nil_r. auto.
Qed.

Lemma entry_returned data w status w' :
  LLVMFuzzerTestOneInput data w = (Ret status, w') ->
  exists path,
    tmpname (length (fs_log w)) = Some path /\
    files w !! path = None /\
    fs_log w' = fs_log w ++ [EvCreate (Some path); EvDelete path 0] /\
    files w' = files w /\
    stdout w' = stdout w +:+ invocation_text path data.
Proof.
  intros Hrun. destruct (entry_cases data w) as [H|(path & Ht & Hf)].
  - rewrite H in Hrun. discriminate.
  - exists path. split; [exact Ht|]. split; [exact Hf|].
    destruct (entry_text data w path _ _ Ht Hf Hrun) as [Hout _].
    destruct (entry_created_summary data w path Ht Hf)
      as (r & w0 & Hrun' & H).
    rewrite Hrun in Hrun'. injection Hrun' as <- <-.
    destruct H as [(Hr & _)|[(_ & Hlog & Hfiles)|(s & _ & Hr & _)]];
      try discriminate. auto.
Qed.

(** X11: two invocations in a row that both return leave the temporary
    storage as it was, make four helper calls (create, delete, create,
    delete: the second file is picked two helper calls after the first),
    and write the text of the first followed by the text of the second. *)
Theorem two_invocations_in_a_row data1 data2 w s1 w1 s2 w2 :
  LLVMFuzzerTestOneInput data1 w = (Ret s1, w1) ->
  LLVMFuzzerTestOneInput data2 w1 = (Ret s2, w2) ->
  exists path1 path2,
    tmpname (length (fs_log w)) = Some path1 /\
    tmpname (2 + length (fs_log w)) = Some path2 /\
    fs_log w2 =
      fs_log w ++ [EvCreate (Some path1); EvDelete path1 0;
                   EvCreate (Some path2); EvDelete path2 0] /\
    files w2 = files w /\
    stdout w2 =
      stdout w +:+ invocation_text path1 data1 +:+ invocation_text path2 data2.
Proof.
  intros H1 H2.
  destruct (entry_returned _ _ _ _ H1) as (p1 & Ht1 & _ & Hl1 & Hf1 & Ho1).
  destruct (entry_returned _ _ _ _ H2) as (p2 & Ht2 & _ & Hl2 & Hf2 & Ho2).
  exists p1, p2. split; [exact Ht1|].
  rewrite Hl1, length_app in Ht2. simpl in Ht2.
  replace (length (fs_log w) + 2) with (2 + length (fs_log w)) in Ht2 by lia.
  split; [exact Ht2|].
  rewrite Hl2, Hl1, <- app_assoc. split; [reflexivity|].
  rewrite Hf2, Hf1. split; [reflexivity|].
  now rewrite Ho2, Ho1, append_assoc.
Qed.
End MoreEntryPoint.

(** ** The further properties at work on the sample library *)

(** A node with the header of a transform and no transform view. *)
Lemma unbuildable_view_stops_traversal_witness :
  classify (library := Sample.library)
           (IObject.getHeader MoreSamples.broken_xform) = Some Transform /\
  printNodes (library := Sample.library) MoreSamples.broken_xform fresh_world =
  (Throw (StdException "wrong schema"),
   printed ("Node name: xf" +:+ nl +:+ "Node full name: /xf" +:+ nl +:+
            "MetaData: schema=AbcGeom_Xform_v3" +:+ nl) fresh_world).
Proof.
  split; [reflexivity|].
  apply (unbuildable_view_stops_traversal (library := Sample.library)
           MoreSamples.broken_xform Transform (StdException "wrong schema")
           fresh_world); reflexivity.
Defined.

(** The root whose second child cannot be read. *)
Lemma failing_child_stops_traversal_witness :
  printNodes (library := Sample.library)
             (Sample.truncated (StdException "Ogawa: read error")) fresh_world =
  (Throw (StdException "Ogawa: read error"),
   printed (text_of (node_block (library := Sample.library)
                       (Sample.truncated (StdException "Ogawa: read error"))) +:+
            children_text (library := Sample.library)
                       (Sample.truncated (StdException "Ogawa: read error")) 1)
           fresh_world).
Proof.
  apply (failing_child_stops_traversal (library := Sample.library)
           (Sample.truncated (StdException "Ogawa: read error")) 2 1).
  - vm_compute; reflexivity.
  - reflexivity.
  - lia.
  - intros j Hj. assert (j = 0) as -> by lia.
    eexists. split; [reflexivity | vm_compute; reflexivity].
  - reflexivity.
Defined.

(** A transform without children, offered children all the same. *)
Lemma children_beyond_count_unread_witness :
  printNodes (library := Sample.library)
             (with_children Sample.lone_xform MoreSamples.crowded) fresh_world =
  printNodes (library := Sample.library) Sample.lone_xform fresh_world.
Proof.
  apply (children_beyond_count_unread (library := Sample.library)
           Sample.lone_xform MoreSamples.crowded).
  simpl. intros i Hi. lia.
Defined.

(** The sample subdivision surface. *)
Lemma printSubD_scheme_lines_last_witness :
  printSubD MoreSamples.subd_node fresh_world =
  (Ret tt,
   printed ("  SubD Property Count: 2." +:+ nl +:+
            "  Property[0] name: N" +:+ nl +:+
            "  Property[1] name: uv" +:+ nl +:+
            "    Sample Count: 2" +:+ nl +:+
            scheme_lines "1" "1" "0" "1") fresh_world).
Proof.
  rewrite (printSubD_scheme_lines_last MoreSamples.subd_node
             (Sample.subd_schema ["N"; "uv"]) "1" "1" "0" "1" fresh_world);
    reflexivity.
Defined.

(** The empty input, which the sample factory rejects. *)
Lemma rejected_input_prints_message_witness :
  exists w',
    Sample.run Sample.same_name [] fresh_world = (Ret EXIT_SUCCESS, w') /\
    stdout w' = stdout fresh_world +:+ "Ogawa: not an archive" +:+ nl /\
    files w' = files fresh_world.
Proof.
  apply (rejected_input_prints_message (library := Sample.library)
           (environment := Sample.same_name) [] fresh_world "/tmp/fuzz-file"
           "Ogawa: not an archive"); reflexivity.
Defined.

(** The invalid archive of the sample library. *)
Lemma invalid_input_prints_marker_witness :
  exists w',
    Sample.run Sample.same_name [Byte.x02] fresh_world = (Ret EXIT_SUCCESS, w') /\
    stdout w' =
      stdout fresh_world +:+ nl +:+ "file " +:+ "/tmp/fuzz-file" +:+
      " (invalid)" +:+ ":" +:+ nl +:+ nl /\
    files w' = files fresh_world.
Proof.
  apply (invalid_input_prints_marker (library := Sample.library)
           (environment := Sample.same_name) [Byte.x02] fresh_world
           "/tmp/fuzz-file" Sample.invalid_archive); reflexivity.
Defined.

(** The two runs of the sample, each temporary file with its own name. *)
Lemma two_invocations_in_a_row_witness :
  exists path1 path2,
    tmpname (Environment := Sample.new_names) (length (fs_log fresh_world)) =
      Some path1 /\
    tmpname (Environment := Sample.new_names) (2 + length (fs_log fresh_world)) =
      Some path2 /\
    fs_log Sample.second_run.2 =
      fs_log fresh_world ++ [EvCreate (Some path1); EvDelete path1 0;
                             EvCreate (Some path2); EvDelete path2 0] /\
    files Sample.second_run.2 = files fresh_world /\
    stdout Sample.second_run.2 =
      stdout fresh_world +:+
      invocation_text (library := Sample.library) path1 [Byte.x04] +:+
      invocation_text (library := Sample.library) path2 [Byte.x04].
Proof.
  apply (two_invocations_in_a_row (library := Sample.library)
           (environment := Sample.new_names) [Byte.x04] [Byte.x04] fresh_world
           EXIT_SUCCESS Sample.first_run.2 EXIT_SUCCESS Sample.second_run.2);
    vm_compute; reflexivity.
Defined.
